(** * MHScrapper: the pagination-and-extraction loop of
      [src/extraction_script.py], embedded in Rocq.

    The scraper drives a browser session over a paginated listing and copies
    the [data-*] attributes of every row's view button into seven growing
    lists of dictionaries.  The embedding keeps the shape of the Python code:

    - the browser is an explicit value ([WebDriver]): the listing it can
      reach and the page it currently shows;
    - every method of [MHScrapper] is a computation in a small monad that
      threads the instance ([self]) and can raise a Python exception;
      list appends made before an exception stay in the instance, as they
      do in Python;
    - [while True] is run with a fuel counter; running out of fuel is the
      third outcome [Diverge], distinct from returning and from raising.

    Calls to [self.logger] neither touch the collections nor the control
    flow and are left out. *)

From Stdlib Require Import List String ZArith Lia Bool.
Import ListNotations.
Open Scope string_scope.
Open Scope Z_scope.
Open Scope list_scope.

(** ** The browser side *)

(** What the driver answers when one attribute of an element is read:
    the raw text, or the read itself raises (stale element, lost session).
    An attribute the element does not carry is simply not listed. *)
Inductive attr_read : Type :=
| Text (v : string)
| ReadRaises.

Record WebElement : Type := mkElem {
  attributes : list (string * attr_read)
}.

(** The pagination bar: only the presence of the link labelled with the
    single right-pointing angle quotation mark matters. *)
Record Pagination : Type := mkPagination {
  next_link : bool
}.

(** The element with id [hosp]; [tbody] is [None] when the table has no
    body tag, otherwise the buttons found below it, in document order. *)
Record Table : Type := mkTable {
  tbody : option (list WebElement)
}.

Record Page : Type := mkPage {
  hosp : option Table;
  pagination : option Pagination
}.

(** Pages of the listing, page 1 first. *)
Definition Listing : Type := list Page.

(** The session: the site it talks to, whether the site can be reached
    by [driver.get], and the number of the page on display ([None] until
    a navigation has succeeded). *)
Record WebDriver : Type := mkDriver {
  site : Listing;
  reachable : bool;
  location : option Z
}.

Definition page_at (l : Listing) (n : Z) : option Page :=
  if n <? 1 then None else nth_error l (Z.to_nat (n - 1)).

(** The document the session shows, if any. *)
Definition shown (d : WebDriver) : option Page :=
  match location d with
  | Some n => page_at (site d) n
  | None => None
  end.

(** ** Python values and the instance *)

(** A Python dict with string keys, in insertion order; a value is a raw
    attribute text or [None]. *)
Definition dict : Type := list (string * option string).

Fixpoint dict_get (d : dict) (key : string) : option (option string) :=
  match d with
  | [] => None
  | (k, v) :: d' => if String.eqb k key then Some v else dict_get d' key
  end.

Inductive exn : Type :=
| NoSuchElementException
| StaleElementReferenceException
| WebDriverException
| AttributeError.

(** [except NoSuchElementException] *)
Definition is_NoSuchElementException (e : exn) : bool :=
  match e with
  | NoSuchElementException => true
  | _ => false
  end.

Record MHScrapper : Type := mkScrapper {
  page_rows : list dict;
  identifiers : list dict;
  locations : list dict;
  contacts : list dict;
  status : list dict;
  services : list dict;
  personnel : list dict;
  current_page : Z;
  stop_page : option Z;
  test : bool;
  driver : WebDriver
}.

(** ** The monad of methods *)

Inductive outcome (A : Type) : Type :=
| Return (a : A)
| Raise (e : exn)
| Diverge.
Arguments Return {A} a.
Arguments Raise {A} e.
Arguments Diverge {A}.

Definition M (A : Type) : Type := MHScrapper -> outcome A * MHScrapper.

Definition ret {A} (a : A) : M A := fun s => (Return a, s).

Definition raise {A} (e : exn) : M A := fun s => (Raise e, s).

Definition bind {A B} (m : M A) (f : A -> M B) : M B :=
  fun s =>
    match m s with
    | (Return a, s') => f a s'
    | (Raise e, s') => (Raise e, s')
    | (Diverge, s') => (Diverge, s')
    end.

(** [try: m  except Exception: h] *)
Definition try_except {A} (m : M A) (h : exn -> M A) : M A :=
  fun s =>
    match m s with
    | (Raise e, s') => h e s'
    | r => r
    end.

Definition get_self : M MHScrapper := fun s => (Return s, s).

Notation "x <- m ;; k" := (bind m (fun x => k))
  (at level 61, m at next level, right associativity).
Notation "m ;; k" := (bind m (fun _ => k))
  (at level 61, right associativity).

(** ** Driver calls *)

Fixpoint find_attribute (l : list (string * attr_read)) (name : string)
  : option attr_read :=
  match l with
  | [] => None
  | (k, v) :: l' => if String.eqb k name then Some v else find_attribute l' name
  end.

(** [button_elem.get_attribute(name)]: the text, [None] when the element
    has no such attribute, or an exception when the read fails. *)
Definition get_attribute (button_elem : WebElement) (name : string)
  : M (option string) :=
  match find_attribute (attributes button_elem) name with
  | Some (Text v) => ret (Some v)
  | Some ReadRaises => raise StaleElementReferenceException
  | None => ret None
  end.

(** [self.driver.get(url)] with [&page=n] appended to the listing's url. *)
Definition driver_get (d : WebDriver) (n : Z) : outcome unit * WebDriver :=
  if reachable d
  then (Return tt, mkDriver (site d) (reachable d) (Some n))
  else (Raise WebDriverException, d).

(** [next_page.click()]: the session moves on to the following page. *)
Definition click_next (d : WebDriver) : WebDriver :=
  mkDriver (site d) (reachable d) (option_map Z.succ (location d)).

(** ** Appending to the collections *)

Definition append_page_rows (data : dict) : M unit := fun s =>
  (Return tt,
   mkScrapper (page_rows s ++ [data]) (identifiers s) (locations s)
     (contacts s) (status s) (services s) (personnel s)
     (current_page s) (stop_page s) (test s) (driver s)).

Definition append_identifiers (data : dict) : M unit := fun s =>
  (Return tt,
   mkScrapper (page_rows s) (identifiers s ++ [data]) (locations s)
     (contacts s) (status s) (services s) (personnel s)
     (current_page s) (stop_page s) (test s) (driver s)).

Definition append_locations (data : dict) : M unit := fun s =>
  (Return tt,
   mkScrapper (page_rows s) (identifiers s) (locations s ++ [data])
     (contacts s) (status s) (services s) (personnel s)
     (current_page s) (stop_page s) (test s) (driver s)).

Definition append_contacts (data : dict) : M unit := fun s =>
  (Return tt,
   mkScrapper (page_rows s) (identifiers s) (locations s)
     (contacts s ++ [data]) (status s) (services s) (personnel s)
     (current_page s) (stop_page s) (test s) (driver s)).

Definition append_status (data : dict) : M unit := fun s =>
  (Return tt,
   mkScrapper (page_rows s) (identifiers s) (locations s)
     (contacts s) (status s ++ [data]) (services s) (personnel s)
     (current_page s) (stop_page s) (test s) (driver s)).

Definition append_services (data : dict) : M unit := fun s =>
  (Return tt,
   mkScrapper (page_rows s) (identifiers s) (locations s)
     (contacts s) (status s) (services s ++ [data]) (personnel s)
     (current_page s) (stop_page s) (test s) (driver s)).

Definition append_personnel (data : dict) : M unit := fun s =>
  (Return tt,
   mkScrapper (page_rows s) (identifiers s) (locations s)
     (contacts s) (status s) (services s) (personnel s ++ [data])
     (current_page s) (stop_page s) (test s) (driver s)).

(** ** The seven getters

    Each reads its attributes in the order of the source, builds the dict
    with the keys in the order of the source, and appends it last: a read
    that raises leaves the getter's own collection untouched. *)

Definition get_page_rows (button_elem : WebElement) : M unit :=
  state <- get_attribute button_elem "data-state" ;;
  lga <- get_attribute button_elem "data-lga" ;;
  ward <- get_attribute button_elem "data-ward" ;;
  facility_uid <- get_attribute button_elem "data-id" ;;
  facility_code <- get_attribute button_elem "data-unique_id" ;;
  facility_name <- get_attribute button_elem "data-facility_name" ;;
  facility_level <- get_attribute button_elem "data-facility_level" ;;
  ownership <- get_attribute button_elem "data-ownership" ;;
  append_page_rows
    [("state", state); ("lga", lga); ("ward", ward);
     ("facility_uid", facility_uid); ("facility_code", facility_code);
     ("facility_name", facility_name); ("facility_level", facility_level);
     ("ownership", ownership)].

Definition get_identifiers (button_elem : WebElement) : M unit :=
  facility_uid <- get_attribute button_elem "data-id" ;;
  facility_code <- get_attribute button_elem "data-unique_id" ;;
  state_unique_id <- get_attribute button_elem "data-state_unique_id" ;;
  registration_no <- get_attribute button_elem "data-registration_no" ;;
  facility_name <- get_attribute button_elem "data-facility_name" ;;
  alternate_name <- get_attribute button_elem "data-alt_facility_name" ;;
  start_date <- get_attribute button_elem "data-start_date" ;;
  ownership <- get_attribute button_elem "data-ownership" ;;
  ownership_type <- get_attribute button_elem "data-ownership_type" ;;
  facility_level <- get_attribute button_elem "data-facility_level" ;;
  facility_level_option <-
    get_attribute button_elem "data-facility_level_option" ;;
  days_of_operation <- get_attribute button_elem "data-operational_days" ;;
  hours_of_operation <- get_attribute button_elem "data-operational_hours" ;;
  append_identifiers
    [("facility_uid", facility_uid);
     ("facility_code", facility_code); ("state_unique_id", state_unique_id);
     ("registration_no", registration_no); ("facility_name", facility_name);
     ("alternate_name", alternate_name); ("start_date", start_date);
     ("ownership", ownership); ("ownership_type", ownership_type);
     ("facility_level", facility_level);
     ("facility_level_option", facility_level_option);
     ("days_of_operation", days_of_operation);
     ("hours_of_operation", hours_of_operation)].

Definition get_location (button_elem : WebElement) : M unit :=
  facility_uid <- get_attribute button_elem "data-id" ;;
  state <- get_attribute button_elem "data-state" ;;
  lga <- get_attribute button_elem "data-lga" ;;
  ward <- get_attribute button_elem "data-ward" ;;
  physical_location <- get_attribute button_elem "data-physical_location" ;;
  postal_address <- get_attribute button_elem "data-postal_address" ;;
  longitude <- get_attribute button_elem "data-longitude" ;;
  latitude <- get_attribute button_elem "data-latitude" ;;
  append_locations
    [("facility_uid", facility_uid); ("state", state); ("lga", lga);
     ("ward", ward); ("physical_location", physical_location);
     ("postal_address", postal_address); ("longitude", longitude);
     ("latitude", latitude)].

Definition get_contacts (button_elem : WebElement) : M unit :=
  facility_uid <- get_attribute button_elem "data-id" ;;
  phone_number <- get_attribute button_elem "data-phone_number" ;;
  alternate_number <- get_attribute button_elem "data-alternate_number" ;;
  email_address <- get_attribute button_elem "data-email_address" ;;
  website <- get_attribute button_elem "data-website" ;;
  append_contacts
    [("facility_uid", facility_uid);
     ("phone_number", phone_number); ("alternate_number", alternate_number);
     ("email_address", email_address); ("website", website)].

Definition get_status (button_elem : WebElement) : M unit :=
  facility_uid <- get_attribute button_elem "data-id" ;;
  operation_status <- get_attribute button_elem "data-operation_status" ;;
  registration_status <-
    get_attribute button_elem "data-registration_status" ;;
  license_status <- get_attribute button_elem "data-license_status" ;;
  append_status
    [("facility_uid", facility_uid);
     ("operation_status", operation_status);
     ("registration_status", registration_status);
     ("license_status", license_status)].

Definition get_services (button_elem : WebElement) : M unit :=
  facility_uid <- get_attribute button_elem "data-id" ;;
  outpatient_service <- get_attribute button_elem "data-outpatient" ;;
  inpatient_service <- get_attribute button_elem "data-inpatient" ;;
  medical_service <- get_attribute button_elem "data-medical" ;;
  surgical_service <- get_attribute button_elem "data-surgical" ;;
  gynecology_service <- get_attribute button_elem "data-gyn" ;;
  pediatrics_service <- get_attribute button_elem "data-pediatrics" ;;
  dental_service <- get_attribute button_elem "data-dental" ;;
  special_service <- get_attribute button_elem "data-specialservice" ;;
  tot_num_beds <- get_attribute button_elem "data-beds" ;;
  onsite_laboratory <- get_attribute button_elem "data-onsite_laboratory" ;;
  onsite_imaging <- get_attribute button_elem "data-onsite_imaging" ;;
  onsite_pharmarcy <- get_attribute button_elem "data-onsite_pharmarcy" ;;
  mortuary_services <- get_attribute button_elem "data-mortuary_services" ;;
  ambulance_services <- get_attribute button_elem "data-ambulance_services" ;;
  append_services
    [("facility_uid", facility_uid);
     ("outpatient_service", outpatient_service);
     ("ambulance_services", ambulance_services);
     ("mortuary_services", mortuary_services);
     ("onsite_imaging", onsite_imaging);
     ("onsite_pharmarcy", onsite_pharmarcy);
     ("onsite_laboratory", onsite_laboratory);
     ("tot_num_beds", tot_num_beds); ("special_service", special_service);
     ("dental_service", dental_service);
     ("pediatrics_service", pediatrics_service);
     ("gynecology_service", gynecology_service);
     ("surgical_service", surgical_service);
     ("medical_service", medical_service);
     ("inpatient_service", inpatient_service)].

Definition get_personnel (button_elem : WebElement) : M unit :=
  facility_uid <- get_attribute button_elem "data-id" ;;
  num_of_docs <- get_attribute button_elem "data-doctors" ;;
  num_of_pharms <- get_attribute button_elem "data-pharmacists" ;;
  num_of_pharm_technicians <-
    get_attribute button_elem "data-pharmacy_technicians" ;;
  num_of_dentists <- get_attribute button_elem "data-dentist" ;;
  num_of_dental_technicians <-
    get_attribute button_elem "data-dental_technicians" ;;
  num_of_nurses <- get_attribute button_elem "data-nurses" ;;
  num_of_midwifes <- get_attribute button_elem "data-midwifes" ;;
  num_of_nurse_midwife <- get_attribute button_elem "data-nurse_midwife" ;;
  num_of_lab_technicians <-
    get_attribute button_elem "data-lab_technicians" ;;
  num_of_lab_scientists <- get_attribute button_elem "data-lab_scientists" ;;
  num_of_him_officers <- get_attribute button_elem "data-him_officers" ;;
  num_of_community_health_officer <-
    get_attribute button_elem "data-community_health_officer" ;;
  num_of_community_extension_workers <-
    get_attribute button_elem "data-community_extension_workers" ;;
  num_of_jun_community_extension_worker <-
    get_attribute button_elem "data-jun_community_extension_worker" ;;
  num_of_env_health_officers <-
    get_attribute button_elem "data-env_health_officers" ;;
  num_of_health_attendants <- get_attribute button_elem "data-attendants" ;;
  append_personnel
    [("facility_uid", facility_uid);
     ("num_of_docs", num_of_docs); ("num_of_pharms", num_of_pharms);
     ("num_of_midwifes", num_of_midwifes); ("num_of_nurses", num_of_nurses);
     ("num_of_nurse_midwife", num_of_nurse_midwife);
     ("num_of_pharm_technicians", num_of_pharm_technicians);
     ("num_of_dentists", num_of_dentists);
     ("num_of_health_attendants", num_of_health_attendants);
     ("num_of_env_health_officers", num_of_env_health_officers);
     ("num_of_him_officers", num_of_him_officers);
     ("num_of_community_health_officer", num_of_community_health_officer);
     ("num_of_jun_community_extension_worker",
      num_of_jun_community_extension_worker);
     ("num_of_community_extension_workers",
      num_of_community_extension_workers);
     ("num_of_dental_technicians", num_of_dental_technicians);
     ("num_of_lab_technicians", num_of_lab_technicians);
     ("num_of_lab_scientists", num_of_lab_scientists)].

Definition extract_data (button_elem : WebElement) : M unit :=
  get_page_rows button_elem ;;
  get_identifiers button_elem ;;
  get_location button_elem ;;
  get_contacts button_elem ;;
  get_status button_elem ;;
  get_services button_elem ;;
  get_personnel button_elem.

(** The [for] loop over the buttons; [row_num] counts the rows that went
    through and only feeds the log lines. *)
Fixpoint extract_view_buttons_loop (row_num : Z) (buttons : list WebElement)
  : M unit :=
  match buttons with
  | [] => ret tt
  | button :: rest =>
      row_num' <- try_except
                    (extract_data button ;; ret (row_num + 1))
                    (fun _ => ret row_num) ;;
      extract_view_buttons_loop row_num' rest
  end.

Definition extract_view_buttons_data (buttons : list WebElement) : M unit :=
  extract_view_buttons_loop 1 buttons.

(** ** Locating the table and turning the page *)

(** [self.driver.find_element(By.ID, "hosp")] *)
Definition find_hosp : M Table := fun s =>
  match shown (driver s) with
  | Some p =>
      match hosp p with
      | Some t => (Return t, s)
      | None => (Raise NoSuchElementException, s)
      end
  | None => (Raise NoSuchElementException, s)
  end.

Definition get_page_table : M (option Table) :=
  try_except (page_table <- find_hosp ;; ret (Some page_table))
             (fun _ => ret None).

(** [page_table.find_element(By.TAG_NAME, "tbody")]; on [None] the
    attribute lookup itself fails. *)
Definition get_table_body (page_table : option Table)
  : M (list WebElement) :=
  match page_table with
  | None => raise AttributeError
  | Some t =>
      match tbody t with
      | Some body => ret body
      | None => raise NoSuchElementException
      end
  end.

(** [table_body.find_elements(By.TAG_NAME, "button")]: never raises, the
    list may be empty. *)
Definition get_page_view_buttons (table_body : list WebElement)
  : M (list WebElement) :=
  ret table_body.

(** [self.driver.find_element(By.CLASS_NAME, "pagination")] *)
Definition find_pagination : M Pagination := fun s =>
  match shown (driver s) with
  | Some p =>
      match pagination p with
      | Some bar => (Return bar, s)
      | None => (Raise NoSuchElementException, s)
      end
  | None => (Raise NoSuchElementException, s)
  end.

(** [pagination.find_element(By.LINK_TEXT, ...)] *)
Definition find_next_link (bar : Pagination) : M unit :=
  if next_link bar then ret tt else raise NoSuchElementException.

(** [next_page.click()] followed by [self.current_page += 1] *)
Definition click_and_count : M unit := fun s =>
  (Return tt,
   mkScrapper (page_rows s) (identifiers s) (locations s)
     (contacts s) (status s) (services s) (personnel s)
     (current_page s + 1) (stop_page s) (test s) (click_next (driver s))).

(** [try: m  except NoSuchElementException: h]; any other exception
    passes through. *)
Definition try_except_NoSuchElement {A} (m : M A) (h : M A) : M A :=
  fun s =>
    match m s with
    | (Raise e, s') =>
        if is_NoSuchElementException e then h s' else (Raise e, s')
    | r => r
    end.

Definition get_next_page : M bool :=
  bar <- find_pagination ;;
  try_except_NoSuchElement
    (find_next_link bar ;; click_and_count ;; ret true)
    (ret false).

(** ** The scraping loop *)

Inductive loop_exit : Type :=
| Break
| NextIteration.

(** [self.test is True and self.current_page % 3 == 2] *)
Definition test_conditions_met (s : MHScrapper) : bool :=
  test s && (current_page s mod 3 =? 2).

(** [self.stop_page is not None and self.current_page == self.stop_page] *)
Definition stop_page_conditions_met (s : MHScrapper) : bool :=
  match stop_page s with
  | Some p => current_page s =? p
  | None => false
  end.

(** One pass through the body of [while True]. *)
Definition iteration : M loop_exit :=
  try_except
    (page_table <- get_page_table ;;
     page_body <- get_table_body page_table ;;
     view_buttons <- get_page_view_buttons page_body ;;
     extract_view_buttons_data view_buttons ;;
     self <- get_self ;;
     if test_conditions_met self then ret Break
     else if stop_page_conditions_met self then ret Break
     else
       page_bool <- get_next_page ;;
       if negb page_bool then ret Break else ret NextIteration)
    (fun _ => ret NextIteration).

Fixpoint while_True (fuel : nat) : M unit :=
  match fuel with
  | O => fun s => (Diverge, s)
  | S fuel' =>
      e <- iteration ;;
      match e with
      | Break => ret tt
      | NextIteration => while_True fuel'
      end
  end.

(** The returned [full_data]: seven keys, each bound to its collection. *)
Definition bundle : Type := list (string * list dict).

Definition full_data (s : MHScrapper) : bundle :=
  [("page_rows", page_rows s); ("identifiers", identifiers s);
   ("locations", locations s); ("contacts", contacts s);
   ("status", status s); ("services", services s);
   ("personnel", personnel s)].

Definition scrape_mh_data (fuel : nat) : M bundle :=
  while_True fuel ;;
  self <- get_self ;;
  ret (full_data self).

(** ** The constructor *)

(** [webdriver.Chrome()]: a fresh session, nothing loaded yet. *)
Definition Chrome (website : Listing) (up : bool) : WebDriver :=
  mkDriver website up None.

(** [MHScrapper(test, start_page, stop_page)] against a given website; a
    failed [driver.get] is logged and the instance is built all the same. *)
Definition init (website : Listing) (up : bool)
    (test : bool) (start_page : Z) (stop_page : option Z) : MHScrapper :=
  let d := Chrome website up in
  let d' := match driver_get d start_page with
            | (Return _, d1) => d1
            | (_, d1) => d1
            end in
  mkScrapper [] [] [] [] [] [] [] start_page stop_page test d'.

(** [run]: construct, scrape, hand the outcome to the caller. *)
Definition run (fuel : nat) (website : Listing) (up : bool)
    (test : bool) (start_page : Z) (stop_page : option Z)
  : outcome bundle :=
  fst (scrape_mh_data fuel (init website up test start_page stop_page)).

(** ** Vocabulary for the statements *)

(** The seven record kinds, in the order [extract_data] produces them. *)
Inductive kind : Type :=
| PageRow | Identifier | Location | Contact | Status | Service | Personnel.

Definition kinds : list kind :=
  [PageRow; Identifier; Location; Contact; Status; Service; Personnel].

Definition collection (k : kind) (s : MHScrapper) : list dict :=
  match k with
  | PageRow => page_rows s
  | Identifier => identifiers s
  | Location => locations s
  | Contact => contacts s
  | Status => status s
  | Service => services s
  | Personnel => personnel s
  end.

Definition getter (k : kind) : WebElement -> M unit :=
  match k with
  | PageRow => get_page_rows
  | Identifier => get_identifiers
  | Location => get_location
  | Contact => get_contacts
  | Status => get_status
  | Service => get_services
  | Personnel => get_personnel
  end.

Definition append (k : kind) : dict -> M unit :=
  match k with
  | PageRow => append_page_rows
  | Identifier => append_identifiers
  | Location => append_locations
  | Contact => append_contacts
  | Status => append_status
  | Service => append_services
  | Personnel => append_personnel
  end.

(** The text an attribute read yields when it does not raise. *)
Definition attr_text (b : WebElement) (name : string) : option string :=
  match find_attribute (attributes b) name with
  | Some (Text v) => Some v
  | _ => None
  end.

Definition read_fails (b : WebElement) (name : string) : bool :=
  match find_attribute (attributes b) name with
  | Some ReadRaises => true
  | _ => false
  end.

(** No attribute read of the element raises. *)
Definition readable (b : WebElement) : bool :=
  forallb (fun p => match snd p with Text _ => true | ReadRaises => false end)
          (attributes b).

(** The attribute is not on the element. *)
Definition missing (b : WebElement) (name : string) : bool :=
  match find_attribute (attributes b) name with
  | None => true
  | Some _ => false
  end.

(** Key of the record and the attribute it is filled from, per kind, in
    the key order of the dict literals of the seven getters. *)
Definition field_source (k : kind) : list (string * string) :=
  match k with
  | PageRow =>
      [("state", "data-state"); ("lga", "data-lga"); ("ward", "data-ward");
       ("facility_uid", "data-id"); ("facility_code", "data-unique_id");
       ("facility_name", "data-facility_name");
       ("facility_level", "data-facility_level");
       ("ownership", "data-ownership")]
  | Identifier =>
      [("facility_uid", "data-id"); ("facility_code", "data-unique_id");
       ("state_unique_id", "data-state_unique_id");
       ("registration_no", "data-registration_no");
       ("facility_name", "data-facility_name");
       ("alternate_name", "data-alt_facility_name");
       ("start_date", "data-start_date"); ("ownership", "data-ownership");
       ("ownership_type", "data-ownership_type");
       ("facility_level", "data-facility_level");
       ("facility_level_option", "data-facility_level_option");
       ("days_of_operation", "data-operational_days");
       ("hours_of_operation", "data-operational_hours")]
  | Location =>
      [("facility_uid", "data-id"); ("state", "data-state");
       ("lga", "data-lga"); ("ward", "data-ward");
       ("physical_location", "data-physical_location");
       ("postal_address", "data-postal_address");
       ("longitude", "data-longitude"); ("latitude", "data-latitude")]
  | Contact =>
      [("facility_uid", "data-id"); ("phone_number", "data-phone_number");
       ("alternate_number", "data-alternate_number");
       ("email_address", "data-email_address"); ("website", "data-website")]
  | Status =>
      [("facility_uid", "data-id");
       ("operation_status", "data-operation_status");
       ("registration_status", "data-registration_status");
       ("license_status", "data-license_status")]
  | Service =>
      [("facility_uid", "data-id"); ("outpatient_service", "data-outpatient");
       ("ambulance_services", "data-ambulance_services");
       ("mortuary_services", "data-mortuary_services");
       ("onsite_imaging", "data-onsite_imaging");
       ("onsite_pharmarcy", "data-onsite_pharmarcy");
       ("onsite_laboratory", "data-onsite_laboratory");
       ("tot_num_beds", "data-beds");
       ("special_service", "data-specialservice");
       ("dental_service", "data-dental");
       ("pediatrics_service", "data-pediatrics");
       ("gynecology_service", "data-gyn");
       ("surgical_service", "data-surgical");
       ("medical_service", "data-medical");
       ("inpatient_service", "data-inpatient")]
  | Personnel =>
      [("facility_uid", "data-id"); ("num_of_docs", "data-doctors");
       ("num_of_pharms", "data-pharmacists");
       ("num_of_midwifes", "data-midwifes");
       ("num_of_nurses", "data-nurses");
       ("num_of_nurse_midwife", "data-nurse_midwife");
       ("num_of_pharm_technicians", "data-pharmacy_technicians");
       ("num_of_dentists", "data-dentist");
       ("num_of_health_attendants", "data-attendants");
       ("num_of_env_health_officers", "data-env_health_officers");
       ("num_of_him_officers", "data-him_officers");
       ("num_of_community_health_officer", "data-community_health_officer");
       ("num_of_jun_community_extension_worker",
        "data-jun_community_extension_worker");
       ("num_of_community_extension_workers",
        "data-community_extension_workers");
       ("num_of_dental_technicians", "data-dental_technicians");
       ("num_of_lab_technicians", "data-lab_technicians");
       ("num_of_lab_scientists", "data-lab_scientists")]
  end.

(** The dict a getter appends when all its reads go through. *)
Definition record_of (k : kind) (b : WebElement) : dict :=
  map (fun p => (fst p, attr_text b (snd p))) (field_source k).

(** All the reads of one getter go through. *)
Definition reads_ok (k : kind) (b : WebElement) : bool :=
  forallb (fun p => negb (read_fails b (snd p))) (field_source k).

(** The getters of [extract_data] one after the other, each reduced to
    its effect: append the record, or raise before appending. *)
Fixpoint extract_kinds (ks : list kind) (b : WebElement) : M unit :=
  match ks with
  | [] => ret tt
  | k :: ks' =>
      if reads_ok k b
      then append k (record_of k b) ;; extract_kinds ks' b
      else raise StaleElementReferenceException
  end.

(** How many getters of [extract_data] complete on an element. *)
Fixpoint completed (ks : list kind) (b : WebElement) : nat :=
  match ks with
  | [] => O
  | k :: ks' => if reads_ok k b then S (completed ks' b) else O
  end.

(** Buttons, table and next link of the page with a given number. *)
Definition buttons_of (p : Page) : option (list WebElement) :=
  match hosp p with
  | Some t => tbody t
  | None => None
  end.

Definition buttons_at (l : Listing) (n : Z) : list WebElement :=
  match page_at l n with
  | Some p => match buttons_of p with Some bs => bs | None => [] end
  | None => []
  end.

Definition scrapable_at (l : Listing) (n : Z) : bool :=
  match page_at l n with
  | Some p => match buttons_of p with Some _ => true | None => false end
  | None => false
  end.

Definition next_at (l : Listing) (n : Z) : bool :=
  match page_at l n with
  | Some p =>
      match pagination p with
      | Some bar => next_link bar
      | None => false
      end
  | None => false
  end.

(** Page numbers [p, p+1, ..., p+len-1]. *)
Fixpoint page_range (p : Z) (len : nat) : list Z :=
  match len with
  | O => []
  | S len' => p :: page_range (p + 1) len'
  end.

(** One pass of the loop body with the exceptions resolved. *)
Definition iteration_result (s : MHScrapper) : outcome loop_exit * MHScrapper :=
  match shown (driver s) with
  | None => (Return NextIteration, s)
  | Some p =>
      match buttons_of p with
      | None => (Return NextIteration, s)
      | Some bs =>
          let s1 := snd (extract_view_buttons_data bs s) in
          if test_conditions_met s then (Return Break, s1)
          else if stop_page_conditions_met s then (Return Break, s1)
          else
            match pagination p with
            | None => (Return NextIteration, s1)
            | Some bar =>
                if next_link bar
                then (Return NextIteration, snd (click_and_count s1))
                else (Return Break, s1)
            end
      end
  end.

Definition kind_eqb (a b : kind) : bool :=
  match a, b with
  | PageRow, PageRow | Identifier, Identifier | Location, Location
  | Contact, Contact | Status, Status | Service, Service
  | Personnel, Personnel => true
  | _, _ => false
  end.

(** Position of a kind in the sequence of [extract_data]. *)
Definition kind_index (k : kind) : nat :=
  match k with
  | PageRow => 0 | Identifier => 1 | Location => 2 | Contact => 3
  | Status => 4 | Service => 5 | Personnel => 6
  end.

(** What one pass of [extract_data] over an element adds to the collection
    of a kind: its record when the getter of that kind is reached and
    completes, nothing otherwise. *)
Definition added (k : kind) (b : WebElement) : list dict :=
  if (kind_index k <? completed kinds b)%nat then [record_of k b] else [].

(** The [facility_uid] every record of an element carries. *)
Definition data_id (b : WebElement) : option string :=
  attr_text b "data-id".

(** The browser shows page [p] of the listing [l] and the page counter of
    the instance agrees with it. *)
Definition in_sync (l : Listing) (p : Z) (s : MHScrapper) : Prop :=
  site (driver s) = l /\ location (driver s) = Some p /\ current_page s = p.

(** The records of kind [k] on the pages with the given numbers. *)
Definition records_on (l : Listing) (k : kind) (ns : list Z) : list dict :=
  flat_map (fun n => flat_map (added k) (buttons_at l n)) ns.

(** The bundle that holds, collection by collection, the records of the
    rows of the pages with the given numbers, page after page and row
    after row, and nothing else. *)
Definition bundle_of (l : Listing) (ns : list Z) : bundle :=
  [("page_rows", records_on l PageRow ns);
   ("identifiers", records_on l Identifier ns);
   ("locations", records_on l Location ns);
   ("contacts", records_on l Contact ns);
   ("status", records_on l Status ns);
   ("services", records_on l Service ns);
   ("personnel", records_on l Personnel ns)].

(** ** A small listing to run the scraper on *)

(** A row whose button answers every read. *)
Definition lagos_button : WebElement :=
  mkElem [("data-id", Text "7"); ("data-state", Text "Lagos");
          ("data-facility_name", Text "General Hospital");
          ("data-phone_number", Text "0800")].

(** A row whose button goes stale when [data-postal_address] is read. *)
Definition stale_button : WebElement :=
  mkElem [("data-id", Text "8"); ("data-state", Text "Kano");
          ("data-postal_address", ReadRaises)].

Definition page_of (bs : list WebElement) (next : bool) : Page :=
  mkPage (Some (mkTable (Some bs))) (Some (mkPagination next)).

(** Three pages; only the last one has no next link. *)
Definition three_pages : Listing :=
  [page_of [lagos_button] true;
   page_of [stale_button; lagos_button] true;
   page_of [lagos_button] false].

(** A page with its table but without the pagination bar. *)
Definition bare_page : Page :=
  mkPage (Some (mkTable (Some [lagos_button]))) None.

(** A fresh instance that has not collected anything yet. *)
Definition fresh : MHScrapper := init three_pages true true 1 None.

(** ** Vocabulary for the properties of the whole run *)

(** The two stop checks of the loop, as a function of the settings and of
    the page number. *)
Definition stops_at (t : bool) (stop : option Z) (n : Z) : bool :=
  (t && (n mod 3 =? 2))
  || match stop with
     | Some q => n =? q
     | None => false
     end.

(** The page carries the pagination bar, and the bar has no next link. *)
Definition last_at (l : Listing) (n : Z) : bool :=
  match page_at l n with
  | Some p =>
      match pagination p with
      | Some bar => negb (next_link bar)
      | None => false
      end
  | None => false
  end.

(** Each collection is at most as long as the one filled before it. *)
Definition ordered_lengths (s : MHScrapper) : Prop :=
  (List.length (personnel s) <= List.length (services s))%nat /\
  (List.length (services s) <= List.length (status s))%nat /\
  (List.length (status s) <= List.length (contacts s))%nat /\
  (List.length (contacts s) <= List.length (locations s))%nat /\
  (List.length (locations s) <= List.length (identifiers s))%nat /\
  (List.length (identifiers s) <= List.length (page_rows s))%nat.

(** The keys of the records of a kind, in the order of the dict literal. *)
Definition keys_of (k : kind) : list string := map fst (field_source k).


(** Page turns a test run makes from a start page before the counter
    modulo 3 is 2. *)
Definition test_turns (start_page : Z) : nat :=
  Z.to_nat ((2 - start_page) mod 3).


(** Five pages, the last one without next link. *)
Definition five_pages : Listing :=
  [page_of [lagos_button] true;
   page_of [stale_button; lagos_button] true;
   page_of [lagos_button] true;
   page_of [stale_button] true;
   page_of [lagos_button; lagos_button] false].


(** Two pages; the second one has its table but no pagination bar. *)
Definition bar_missing_on_page_2 : Listing :=
  [page_of [lagos_button] true; bare_page].

(** * Properties *)

(** ** Attribute reads and the seven getters *)

Lemma bind_get_attribute {B} (b : WebElement) (name : string)
    (k : option string -> M B) (s : MHScrapper) :
  bind (get_attribute b name) k s =
  if read_fails b name then (Raise StaleElementReferenceException, s)
  else k (attr_text b name) s.
Proof.
  unfold bind, get_attribute, read_fails, attr_text.
  destruct (find_attribute (attributes b) name) as [[v|]|]; reflexivity.
Qed.

Lemma get_attribute_run (b : WebElement) (name : string) (s : MHScrapper) :
  get_attribute b name s =
  if read_fails b name then (Raise StaleElementReferenceException, s)
  else (Return (attr_text b name), s).
Proof.
  unfold get_attribute, read_fails, attr_text.
  destruct (find_attribute (attributes b) name) as [[v|]|]; reflexivity.
Qed.

Lemma reads_ok_false (k : kind) (b : WebElement) (a : string) :
  In a (map snd (field_source k)) -> read_fails b a = true ->
  reads_ok k b = false.
Proof.
  unfold reads_ok. intros Hin Hf.
  induction (field_source k) as [|[key a'] l IH]; simpl in *.
  - contradiction.
  - destruct Hin as [-> | Hin].
    + rewrite Hf. reflexivity.
    + rewrite (IH Hin). apply andb_false_r.
Qed.

Lemma reads_ok_true (k : kind) (b : WebElement) (a : string) :
  reads_ok k b = true -> In a (map snd (field_source k)) ->
  read_fails b a = false.
Proof.
  intros Hok Hin. destruct (read_fails b a) eqn:E; [|reflexivity].
  rewrite (reads_ok_false k b a Hin E) in Hok. discriminate.
Qed.

Ltac in_sources := cbn; repeat first [left; reflexivity | right].

Ltac read_step K :=
  rewrite bind_get_attribute;
  lazymatch goal with
  | |- (if read_fails ?b ?a then _ else _) = _ =>
      let E := fresh "E" in
      destruct (read_fails b a) eqn:E;
      [ rewrite (reads_ok_false K b a); [reflexivity | in_sources | exact E]
      | cbv beta ]
  end.

Ltac all_read K :=
  lazymatch goal with
  | |- _ = if reads_ok K ?b then _ else _ =>
      replace (reads_ok K b) with true;
      [ reflexivity
      | unfold reads_ok; cbn [forallb field_source snd];
        repeat match goal with
               | E : read_fails _ _ = false |- _ => rewrite E; clear E
               end;
        reflexivity ]
  end.

Lemma getter_run (k : kind) (b : WebElement) (s : MHScrapper) :
  getter k b s =
  if reads_ok k b then append k (record_of k b) s
  else (Raise StaleElementReferenceException, s).
Proof.
  destruct k; cbn [getter append].
  - unfold get_page_rows. repeat read_step PageRow. all_read PageRow.
  - unfold get_identifiers. repeat read_step Identifier. all_read Identifier.
  - unfold get_location. repeat read_step Location. all_read Location.
  - unfold get_contacts. repeat read_step Contact. all_read Contact.
  - unfold get_status. repeat read_step Status. all_read Status.
  - unfold get_services. repeat read_step Service. all_read Service.
  - unfold get_personnel. repeat read_step Personnel. all_read Personnel.
Qed.

Lemma append_run (k : kind) (d : dict) (s : MHScrapper) :
  append k d s = (Return tt, snd (append k d s)).
Proof. destruct k; reflexivity. Qed.

Lemma append_collection (k k' : kind) (d : dict) (s : MHScrapper) :
  collection k' (snd (append k d s)) =
  collection k' s ++ (if kind_eqb k' k then [d] else []).
Proof.
  destruct k, k'; cbn; try reflexivity; symmetry; apply app_nil_r.
Qed.

Lemma append_frame (k : kind) (d : dict) (s : MHScrapper) :
  let s' := snd (append k d s) in
  current_page s' = current_page s /\ stop_page s' = stop_page s /\
  test s' = test s /\ driver s' = driver s.
Proof. destruct k; cbn; auto. Qed.

Lemma bind_getter {B} (k : kind) (b : WebElement) (f : unit -> M B)
    (s : MHScrapper) :
  bind (getter k b) f s =
  if reads_ok k b then f tt (snd (append k (record_of k b) s))
  else (Raise StaleElementReferenceException, s).
Proof.
  unfold bind. rewrite getter_run.
  destruct (reads_ok k b); [rewrite append_run|]; reflexivity.
Qed.

Lemma bind_append {B} (k : kind) (d : dict) (f : unit -> M B)
    (s : MHScrapper) :
  bind (append k d) f s = f tt (snd (append k d s)).
Proof. unfold bind. rewrite append_run. reflexivity. Qed.

Ltac getter_step K :=
  rewrite (bind_getter K);
  lazymatch goal with
  | |- context [reads_ok K ?b] =>
      destruct (reads_ok K b); [rewrite (bind_append K); cbv beta | reflexivity]
  end.

(** [extract_data] is the seven getters in sequence, each either
    appending its record or raising before it appends. *)
Lemma extract_data_run (b : WebElement) (s : MHScrapper) :
  extract_data b s = extract_kinds kinds b s.
Proof.
  unfold extract_data, kinds, extract_kinds.
  getter_step PageRow. getter_step Identifier. getter_step Location.
  getter_step Contact. getter_step Status. getter_step Service.
  change (get_personnel b) with (getter Personnel b).
  rewrite getter_run.
  destruct (reads_ok Personnel b); [|reflexivity].
  rewrite (bind_append Personnel). rewrite append_run. reflexivity.
Qed.

Lemma extract_kinds_outcome (ks : list kind) (b : WebElement) (s : MHScrapper) :
  fst (extract_kinds ks b s) =
  if (completed ks b =? List.length ks)%nat then Return tt
  else Raise StaleElementReferenceException.
Proof.
  revert s. induction ks as [|k ks IH]; intros s; cbn [extract_kinds completed].
  - reflexivity.
  - destruct (reads_ok k b); [|reflexivity].
    rewrite bind_append. rewrite IH. reflexivity.
Qed.

Lemma extract_kinds_frame (ks : list kind) (b : WebElement) (s : MHScrapper) :
  let s' := snd (extract_kinds ks b s) in
  current_page s' = current_page s /\ stop_page s' = stop_page s /\
  test s' = test s /\ driver s' = driver s.
Proof.
  revert s. induction ks as [|k ks IH]; intros s; cbn [extract_kinds].
  - cbn. auto.
  - destruct (reads_ok k b); [|cbn; auto].
    rewrite bind_append.
    destruct (IH (snd (append k (record_of k b) s))) as (H1 & H2 & H3 & H4).
    destruct (append_frame k (record_of k b) s) as (A1 & A2 & A3 & A4).
    cbv zeta in *. repeat split; congruence.
Qed.

Lemma extract_kinds_collection (ks : list kind) (b : WebElement)
    (s : MHScrapper) (k : kind) :
  collection k (snd (extract_kinds ks b s)) =
  collection k s ++
  map (fun k' => record_of k' b)
      (filter (kind_eqb k) (firstn (completed ks b) ks)).
Proof.
  revert s. induction ks as [|k0 ks IH]; intros s; cbn [extract_kinds completed].
  - cbn. symmetry. apply app_nil_r.
  - destruct (reads_ok k0 b).
    + rewrite bind_append, IH, append_collection.
      cbn [firstn filter]. rewrite <- app_assoc. f_equal.
      destruct (kind_eqb k k0) eqn:E; [|reflexivity].
      destruct k, k0; try discriminate; reflexivity.
    + cbn. symmetry. apply app_nil_r.
Qed.


Lemma added_filter (k : kind) (b : WebElement) (n : nat) :
  map (fun k' => record_of k' b) (filter (kind_eqb k) (firstn n kinds)) =
  if (kind_index k <? n)%nat then [record_of k b] else [].
Proof.
  do 8 (destruct n as [|n]; [destruct k; reflexivity|]).
  destruct k; reflexivity.
Qed.

(** What [extract_data] leaves behind, collection by collection. *)
Lemma extract_data_collection (b : WebElement) (s : MHScrapper) (k : kind) :
  collection k (snd (extract_data b s)) = collection k s ++ added k b.
Proof.
  rewrite extract_data_run, extract_kinds_collection. unfold added.
  rewrite added_filter. reflexivity.
Qed.

Lemma extract_data_outcome (b : WebElement) (s : MHScrapper) :
  fst (extract_data b s) =
  if (completed kinds b =? 7)%nat then Return tt
  else Raise StaleElementReferenceException.
Proof. rewrite extract_data_run. apply extract_kinds_outcome. Qed.

Lemma extract_data_frame (b : WebElement) (s : MHScrapper) :
  let s' := snd (extract_data b s) in
  current_page s' = current_page s /\ stop_page s' = stop_page s /\
  test s' = test s /\ driver s' = driver s.
Proof. rewrite extract_data_run. apply extract_kinds_frame. Qed.

(** ** The loop over the buttons *)

Lemma extract_view_buttons_loop_cons (row_num : Z) (b : WebElement)
    (rest : list WebElement) (s : MHScrapper) :
  exists row_num',
    extract_view_buttons_loop row_num (b :: rest) s =
    extract_view_buttons_loop row_num' rest (snd (extract_data b s)).
Proof.
  cbn [extract_view_buttons_loop]. unfold bind at 1, try_except, bind at 1.
  pose proof (extract_data_outcome b s) as Ho.
  destruct (extract_data b s) as [o s1]. cbn [fst snd] in *.
  destruct (completed kinds b =? 7)%nat; subst o; cbn; eauto.
Qed.

Lemma extract_view_buttons_loop_run (buttons : list WebElement) :
  forall (row_num : Z) (s : MHScrapper),
    extract_view_buttons_loop row_num buttons s =
    (Return tt, fold_left (fun s' b => snd (extract_data b s')) buttons s).
Proof.
  induction buttons as [|b rest IH]; intros row_num s.
  - reflexivity.
  - destruct (extract_view_buttons_loop_cons row_num b rest s) as [r' ->].
    rewrite IH. reflexivity.
Qed.

Lemma extract_view_buttons_data_run (buttons : list WebElement)
    (s : MHScrapper) :
  extract_view_buttons_data buttons s =
  (Return tt, fold_left (fun s' b => snd (extract_data b s')) buttons s).
Proof. apply extract_view_buttons_loop_run. Qed.

Lemma extract_view_buttons_data_collection (buttons : list WebElement)
    (s : MHScrapper) (k : kind) :
  collection k (snd (extract_view_buttons_data buttons s)) =
  collection k s ++ flat_map (added k) buttons.
Proof.
  rewrite extract_view_buttons_data_run. cbn [snd].
  revert s. induction buttons as [|b rest IH]; intros s; cbn [fold_left flat_map].
  - symmetry. apply app_nil_r.
  - rewrite IH, extract_data_collection. symmetry. apply app_assoc.
Qed.

Lemma extract_view_buttons_data_frame (buttons : list WebElement)
    (s : MHScrapper) :
  let s' := snd (extract_view_buttons_data buttons s) in
  current_page s' = current_page s /\ stop_page s' = stop_page s /\
  test s' = test s /\ driver s' = driver s.
Proof.
  rewrite extract_view_buttons_data_run. cbn [snd].
  revert s. induction buttons as [|b rest IH]; intros s; cbn [fold_left].
  - auto.
  - destruct (IH (snd (extract_data b s))) as (H1 & H2 & H3 & H4).
    destruct (extract_data_frame b s) as (A1 & A2 & A3 & A4).
    cbv zeta in *. repeat split; congruence.
Qed.

(** ** Rows whose extraction raises *)




(** ** One facility_uid per element *)

Lemma record_of_facility_uid (k : kind) (b : WebElement) :
  dict_get (record_of k b) "facility_uid" = Some (data_id b).
Proof. destruct k; reflexivity. Qed.

(** C2: whatever one pass of [extract_data] over an element appends to
    the seven collections, every appended record has its [facility_uid]
    read from [data-id] of that element: the same text in all of them, and
    [None] in all of them when the element has no [data-id].  A pass that
    returns appends exactly one record to each collection. *)
Theorem facility_uid_shared_across_collections
    (b : WebElement) (s : MHScrapper) (k : kind) :
  exists ds : list dict,
    collection k (snd (extract_data b s)) = collection k s ++ ds /\
    (forall d, In d ds -> dict_get d "facility_uid" = Some (data_id b)) /\
    (fst (extract_data b s) = Return tt -> List.length ds = 1%nat) /\
    (missing b "data-id" = true -> data_id b = None).
Proof.
  exists (added k b). split; [apply extract_data_collection|]. split; [|split].
  - unfold added. intros d Hd.
    destruct (kind_index k <? completed kinds b)%nat; [|contradiction].
    destruct Hd as [<- | []]. apply record_of_facility_uid.
  - rewrite extract_data_outcome. unfold added.
    destruct (completed kinds b =? 7)%nat eqn:E; [|discriminate].
    apply Nat.eqb_eq in E. rewrite E. intros _. destruct k; reflexivity.
  - unfold missing, data_id, attr_text.
    destruct (find_attribute (attributes b) "data-id"); [discriminate|reflexivity].
Qed.

(** ** Missing attributes *)

Lemma readable_read_fails (b : WebElement) (name : string) :
  readable b = true -> read_fails b name = false.
Proof.
  unfold readable, read_fails. destruct b as [l]. cbn [attributes].
  induction l as [|[key v] l IH]; cbn [forallb find_attribute snd]; intros H.
  - reflexivity.
  - apply andb_true_iff in H. destruct H as [Hv Hl].
    destruct (String.eqb key name); [|exact (IH Hl)].
    destruct v; [reflexivity|discriminate].
Qed.

Lemma readable_reads_ok (b : WebElement) (k : kind) :
  readable b = true -> reads_ok k b = true.
Proof.
  intros H. unfold reads_ok. apply forallb_forall. intros p _.
  rewrite (readable_read_fails b (snd p) H). reflexivity.
Qed.

Lemma readable_completed (b : WebElement) :
  readable b = true -> completed kinds b = 7%nat.
Proof.
  intros H. unfold kinds. cbn [completed].
  rewrite !(readable_reads_ok b _ H). reflexivity.
Qed.

(** Every field of a record holds the text of the attribute the getter
    fills it from. *)
Lemma record_of_field (k : kind) (b : WebElement) (key a : string) :
  In (key, a) (field_source k) ->
  dict_get (record_of k b) key = Some (attr_text b a).
Proof.
  intros H.
  destruct k; cbn [field_source] in H;
    repeat (destruct H as [H|H]; [inversion H; subst; reflexivity|]);
    contradiction.
Qed.

Lemma missing_attr_text (b : WebElement) (a : string) :
  missing b a = true -> attr_text b a = None.
Proof.
  unfold missing, attr_text.
  destruct (find_attribute (attributes b) a); [discriminate|reflexivity].
Qed.

(** C7: on an element whose reads do not raise and which lacks the
    attribute [a], [extract_data] returns, each of the seven collections
    gains exactly one record of the element, and every field filled from
    [a] (the [website] field of the [Contact] record for [data-website])
    holds [None]. *)
Theorem missing_attribute_gives_None
    (b : WebElement) (a : string) (s : MHScrapper) :
  readable b = true -> missing b a = true ->
  fst (extract_data b s) = Return tt /\
  (forall k : kind,
      collection k (snd (extract_data b s)) = collection k s ++ [record_of k b]) /\
  (forall (k : kind) (key : string),
      In (key, a) (field_source k) -> dict_get (record_of k b) key = Some None).
Proof.
  intros Hr Hm. split; [|split].
  - rewrite extract_data_outcome, (readable_completed b Hr). reflexivity.
  - intros k. rewrite extract_data_collection. unfold added.
    rewrite (readable_completed b Hr). destruct k; reflexivity.
  - intros k key Hin. rewrite (record_of_field k b key a Hin).
    rewrite (missing_attr_text b a Hm). reflexivity.
Qed.

Lemma missing_attribute_gives_None_witness :
  readable lagos_button = true /\ missing lagos_button "data-website" = true /\
  fst (extract_data lagos_button fresh) = Return tt /\
  (forall k : kind,
      collection k (snd (extract_data lagos_button fresh)) =
      collection k fresh ++ [record_of k lagos_button]) /\
  (forall (k : kind) (key : string),
      In (key, "data-website") (field_source k) ->
      dict_get (record_of k lagos_button) key = Some None).
Proof.
  split; [reflexivity|]. split; [reflexivity|].
  apply (missing_attribute_gives_None lagos_button "data-website" fresh);
    reflexivity.
Defined.

(** The [Contact] record of a row without [data-website]. *)
Example contact_without_website :
  contacts (snd (extract_data lagos_button fresh)) =
  [[("facility_uid", Some "7"); ("phone_number", Some "0800");
    ("alternate_number", None); ("email_address", None);
    ("website", None)]].
Proof. vm_compute. reflexivity. Qed.

(** ** One pass of the scraping loop *)

Lemma get_page_table_run (s : MHScrapper) :
  get_page_table s =
  (Return match shown (driver s) with
          | Some p => hosp p
          | None => None
          end, s).
Proof.
  unfold get_page_table, try_except, bind, find_hosp, ret.
  destruct (shown (driver s)) as [p|]; [|reflexivity].
  destruct (hosp p); reflexivity.
Qed.

Lemma get_next_page_run (s : MHScrapper) :
  get_next_page s =
  match shown (driver s) with
  | Some p =>
      match pagination p with
      | Some bar =>
          if next_link bar then (Return true, snd (click_and_count s))
          else (Return false, s)
      | None => (Raise NoSuchElementException, s)
      end
  | None => (Raise NoSuchElementException, s)
  end.
Proof.
  unfold get_next_page, bind at 1, find_pagination.
  destruct (shown (driver s)) as [p|]; [|reflexivity].
  destruct (pagination p) as [bar|]; [|reflexivity].
  unfold try_except_NoSuchElement, bind, find_next_link, ret, raise.
  destruct (next_link bar); reflexivity.
Qed.

Lemma conditions_frame (s s' : MHScrapper) :
  current_page s' = current_page s -> stop_page s' = stop_page s ->
  test s' = test s ->
  test_conditions_met s' = test_conditions_met s /\
  stop_page_conditions_met s' = stop_page_conditions_met s.
Proof.
  unfold test_conditions_met, stop_page_conditions_met.
  intros -> -> ->. auto.
Qed.

(** The body of [while True] never raises and never diverges: it either
    breaks or asks for the next iteration. *)
Lemma iteration_run (s : MHScrapper) : iteration s = iteration_result s.
Proof.
  unfold iteration, iteration_result, try_except.
  unfold bind at 1. rewrite get_page_table_run.
  unfold buttons_of.
  destruct (shown (driver s)) as [p|] eqn:Hp; [|reflexivity].
  destruct (hosp p) as [t|]; [|reflexivity].
  unfold bind at 1. cbn [get_table_body].
  destruct (tbody t) as [bs|]; [|reflexivity].
  unfold ret at 1. unfold bind at 1, get_page_view_buttons, ret at 1.
  unfold bind at 1.
  destruct (extract_view_buttons_data_frame bs s) as (F1 & F2 & F3 & F4).
  cbv zeta in *.
  rewrite extract_view_buttons_data_run in *. cbn [snd] in *.
  set (s1 := fold_left _ bs s) in *.
  unfold bind at 1, get_self.
  destruct (conditions_frame s s1 F1 F2 F3) as [-> ->].
  destruct (test_conditions_met s); [reflexivity|].
  destruct (stop_page_conditions_met s); [reflexivity|].
  unfold bind. rewrite get_next_page_run, F4, Hp.
  destruct (pagination p) as [bar|]; [|reflexivity].
  destruct (next_link bar); reflexivity.
Qed.

Lemma iteration_result_returns (s : MHScrapper) :
  exists x s', iteration_result s = (Return x, s').
Proof.
  unfold iteration_result.
  destruct (shown (driver s)) as [p|]; [|eauto].
  destruct (buttons_of p); [|eauto].
  destruct (test_conditions_met s); [eauto|].
  destruct (stop_page_conditions_met s); [eauto|].
  destruct (pagination p) as [bar|]; [|eauto].
  destruct (next_link bar); eauto.
Qed.

Lemma while_True_S (fuel : nat) (s : MHScrapper) :
  while_True (S fuel) s =
  match iteration_result s with
  | (Return Break, s') => (Return tt, s')
  | (Return NextIteration, s') => while_True fuel s'
  | (Raise e, s') => (Raise e, s')
  | (Diverge, s') => (Diverge, s')
  end.
Proof.
  cbn [while_True]. unfold bind. rewrite iteration_run.
  destruct (iteration_result s) as [[[]| |] s']; reflexivity.
Qed.


(** More fuel does not change the result of a loop that has ended. *)
Lemma while_True_fuel_mono (fuel : nat) :
  forall (s s' : MHScrapper) (fuel' : nat),
    while_True fuel s = (Return tt, s') -> (fuel <= fuel')%nat ->
    while_True fuel' s = (Return tt, s').
Proof.
  induction fuel as [|fuel IH]; intros s s' fuel' H Hle.
  - discriminate.
  - destruct fuel' as [|fuel']; [lia|].
    rewrite while_True_S in *.
    destruct (iteration_result_returns s) as (x & s1 & E). rewrite E in *.
    destruct x; [exact H|]. apply IH; [exact H|lia].
Qed.



Lemma scrape_mh_data_run (fuel : nat) (s : MHScrapper) :
  scrape_mh_data fuel s =
  match while_True fuel s with
  | (Return _, s') => (Return (full_data s'), s')
  | (Raise e, s') => (Raise e, s')
  | (Diverge, s') => (Diverge, s')
  end.
Proof.
  unfold scrape_mh_data, bind, get_self, ret.
  destruct (while_True fuel s) as [[| |] s']; reflexivity.
Qed.

(** ** What the caller of [run] sees *)




(** ** Walking through the pages *)

Lemma in_sync_shown (l : Listing) (p : Z) (s : MHScrapper) :
  in_sync l p s -> shown (driver s) = page_at l p.
Proof. intros (Hl & Hp & _). unfold shown. rewrite Hp, Hl. reflexivity. Qed.

Lemma scrapable_at_buttons (l : Listing) (p : Z) :
  scrapable_at l p = true ->
  exists pg, page_at l p = Some pg /\ buttons_of pg = Some (buttons_at l p).
Proof.
  unfold scrapable_at, buttons_at.
  destruct (page_at l p) as [pg|]; [|discriminate].
  destruct (buttons_of pg) as [bs|] eqn:E; [|discriminate].
  intros _. exists pg. split; [reflexivity|exact E].
Qed.

Lemma click_and_count_collection (s : MHScrapper) (k : kind) :
  collection k (snd (click_and_count s)) = collection k s.
Proof. destruct k; reflexivity. Qed.


Lemma init_collection (website : Listing) (up t : bool) (start_page : Z)
    (stop : option Z) (k : kind) :
  collection k (init website up t start_page stop) = [].
Proof. destruct k; reflexivity. Qed.

(** An instance that holds the records of the given pages and nothing
    else returns their bundle. *)
Lemma full_data_bundle_of (s : MHScrapper) (l : Listing) (ns : list Z) :
  (forall k, collection k s = records_on l k ns) ->
  full_data s = bundle_of l ns.
Proof.
  intros H. unfold full_data, bundle_of.
  generalize (H PageRow) (H Identifier) (H Location) (H Contact)
    (H Status) (H Service) (H Personnel).
  cbn [collection]. intros -> -> -> -> -> -> ->. reflexivity.
Qed.

(** An iteration on a page that can be scraped, where no stop check
    fires and the next link is there: the page is gone through, the link
    is clicked and the counter follows the browser. *)
Lemma step_next (l : Listing) (p : Z) (s : MHScrapper) :
  in_sync l p s -> scrapable_at l p = true ->
  test_conditions_met s = false -> stop_page_conditions_met s = false ->
  next_at l p = true ->
  exists s2,
    iteration_result s = (Return NextIteration, s2) /\
    in_sync l (p + 1) s2 /\ test s2 = test s /\ stop_page s2 = stop_page s /\
    forall k, collection k s2 = collection k s ++ records_on l k [p].
Proof.
  intros Hsync Hscr Ht Hs Hn.
  destruct (scrapable_at_buttons l p Hscr) as (pg & Hpg & Hbs).
  unfold iteration_result.
  rewrite (in_sync_shown l p s Hsync), Hpg, Hbs, Ht, Hs.
  unfold next_at in Hn. rewrite Hpg in Hn.
  destruct (pagination pg) as [bar|]; [|discriminate]. rewrite Hn.
  eexists. split; [reflexivity|].
  destruct (extract_view_buttons_data_frame (buttons_at l p) s)
    as (F1 & F2 & F3 & F4).
  destruct Hsync as (Hl & Hloc & Hcur). cbv zeta in *.
  split; [|split; [|split; [|]]].
  - unfold in_sync, click_and_count, click_next. cbn.
    rewrite F1, F4, Hl, Hloc, Hcur. cbn. repeat split.
  - cbn. exact F3.
  - cbn. exact F2.
  - intros k. rewrite click_and_count_collection.
    unfold records_on. cbn [flat_map]. rewrite app_nil_r.
    apply extract_view_buttons_data_collection.
Qed.

(** An iteration on a page that can be scraped, where a stop check
    fires: the page is gone through and the loop is left, with the browser
    and the counter where they were. *)
Lemma step_break (l : Listing) (p : Z) (s : MHScrapper) :
  in_sync l p s -> scrapable_at l p = true ->
  test_conditions_met s || stop_page_conditions_met s = true ->
  exists s1,
    iteration_result s = (Return Break, s1) /\ in_sync l p s1 /\
    forall k, collection k s1 = collection k s ++ records_on l k [p].
Proof.
  intros Hsync Hscr Hc.
  destruct (scrapable_at_buttons l p Hscr) as (pg & Hpg & Hbs).
  unfold iteration_result.
  rewrite (in_sync_shown l p s Hsync), Hpg, Hbs.
  exists (snd (extract_view_buttons_data (buttons_at l p) s)). split.
  - destruct (test_conditions_met s); [reflexivity|].
    cbn in Hc. rewrite Hc. reflexivity.
  - destruct (extract_view_buttons_data_frame (buttons_at l p) s)
      as (F1 & F2 & F3 & F4).
    destruct Hsync as (Hl & Hloc & Hcur). cbv zeta in *.
    unfold in_sync. rewrite F1, F4. repeat split; try assumption.
    intros k. unfold records_on. cbn [flat_map]. rewrite app_nil_r.
    apply extract_view_buttons_data_collection.
Qed.

Lemma records_on_cons (l : Listing) (k : kind) (n : Z) (ns : list Z) :
  records_on l k (n :: ns) = records_on l k [n] ++ records_on l k ns.
Proof. unfold records_on. cbn [flat_map]. rewrite app_nil_r. reflexivity. Qed.

(** Non-test mode, stop page [S]: from page [p], with [len] pages to go
    before [S], the loop goes through [p .. S] and leaves at [S]. *)
Lemma walk_to_stop_page (l : Listing) (S_ : Z) (len : nat) :
  forall (p : Z) (s : MHScrapper) (fuel : nat),
    in_sync l p s -> test s = false -> stop_page s = Some S_ ->
    p + Z.of_nat len = S_ ->
    (forall n, p <= n <= S_ -> scrapable_at l n = true) ->
    (forall n, p <= n < S_ -> next_at l n = true) ->
    exists s',
      while_True (S len + fuel) s = (Return tt, s') /\ in_sync l S_ s' /\
      forall k,
        collection k s' = collection k s ++ records_on l k (page_range p (S len)).
Proof.
  induction len as [|len IH]; intros p s fuel Hsync Ht Hstop Hlen Hscr Hnext.
  - assert (p = S_) by lia. subst p.
    destruct (step_break l S_ s Hsync) as (s1 & E & Hs1 & Hc).
    + apply Hscr. lia.
    + unfold stop_page_conditions_met. rewrite Hstop.
      destruct Hsync as (_ & _ & ->). rewrite Z.eqb_refl. apply orb_true_r.
    + exists s1. cbn [Nat.add]. rewrite while_True_S, E. auto.
  - destruct (step_next l p s Hsync) as (s2 & E & Hs2 & Ht2 & Hst2 & Hc2).
    + apply Hscr. lia.
    + unfold test_conditions_met. rewrite Ht. reflexivity.
    + unfold stop_page_conditions_met. rewrite Hstop.
      destruct Hsync as (_ & _ & ->). apply Z.eqb_neq. lia.
    + apply Hnext. lia.
    + destruct (IH (p + 1) s2 fuel Hs2) as (s' & E' & Hs' & Hc').
      * congruence.
      * congruence.
      * lia.
      * intros n Hn. apply Hscr. lia.
      * intros n Hn. apply Hnext. lia.
      * exists s'. split; [|split; [exact Hs'|]].
        -- cbn [Nat.add] in *. rewrite while_True_S, E. exact E'.
        -- intros k. rewrite Hc', Hc2.
           change (page_range p (S (S len)))
             with (p :: page_range (p + 1) (S len)).
           rewrite (records_on_cons l k p (page_range (p + 1) (S len))).
           symmetry. apply app_assoc.
Qed.

Lemma init_in_sync (website : Listing) (t : bool) (start_page : Z)
    (stop : option Z) :
  in_sync website start_page (init website true t start_page stop).
Proof. unfold in_sync. cbn. auto. Qed.

Lemma scrape_mh_data_returns (fuel : nat) (s s' : MHScrapper) :
  while_True fuel s = (Return tt, s') ->
  scrape_mh_data fuel s = (Return (full_data s'), s').
Proof. intros H. rewrite scrape_mh_data_run, H. reflexivity. Qed.

(** The contacts of pages 1 and 2 of the sample listing: the row of page
    1, and of the two rows of page 2 only the second, the first one
    failing in [get_location]. *)
Example contacts_of_two_pages :
  records_on three_pages Contact [1; 2] =
  [[("facility_uid", Some "7"); ("phone_number", Some "0800");
    ("alternate_number", None); ("email_address", None); ("website", None)];
   [("facility_uid", Some "7"); ("phone_number", Some "0800");
    ("alternate_number", None); ("email_address", None); ("website", None)]].
Proof. vm_compute. reflexivity. Qed.

(** ** Bounded runs *)

(** C4: not in test mode, with stop page [last_page] beyond the start page
    [first_page], on a listing whose pages [first_page .. last_page] carry
    the table and whose pages before [last_page] carry the next link, the
    run ends (any fuel above the number of page turns will do) and returns
    the records of the pages [first_page .. last_page], each gone through
    once, in order: the bundle is [bundle_of], which lists for every kind
    what the buttons of these pages yield, page after page and row after
    row, and nothing from any other page; the counter and the browser end
    on [last_page]: the link to the page after it is never clicked. *)
Theorem bounded_run_scrapes_start_to_stop
    (website : Listing) (first_page last_page : Z) (fuel : nat) :
  first_page < last_page ->
  (forall n, first_page <= n <= last_page -> scrapable_at website n = true) ->
  (forall n, first_page <= n < last_page -> next_at website n = true) ->
  (Z.to_nat (last_page - first_page) < fuel)%nat ->
  let s0 := init website true false first_page (Some last_page) in
  fst (scrape_mh_data fuel s0) =
    Return (bundle_of website
              (page_range first_page
                 (Z.to_nat (last_page - first_page + 1)))) /\
  current_page (snd (scrape_mh_data fuel s0)) = last_page /\
  location (driver (snd (scrape_mh_data fuel s0))) = Some last_page.
Proof.
  intros Hlt Hscr Hnext Hfuel s0.
  set (len := Z.to_nat (last_page - first_page)).
  destruct (walk_to_stop_page website last_page len first_page s0
              (fuel - S len))
    as (s' & E & (Hl & Hloc & Hcur) & Hc).
  - apply init_in_sync.
  - reflexivity.
  - reflexivity.
  - unfold len. lia.
  - exact Hscr.
  - exact Hnext.
  - replace (S len + (fuel - S len))%nat with fuel in E by (unfold len; lia).
    rewrite (scrape_mh_data_returns fuel s0 s' E). cbn [fst snd].
    split; [|split; assumption]. f_equal. apply full_data_bundle_of.
    intros k. rewrite Hc. unfold s0. rewrite init_collection.
    replace (Z.to_nat (last_page - first_page + 1)) with (S len)
      by (unfold len; lia).
    reflexivity.
Qed.

Lemma bounded_run_scrapes_start_to_stop_witness :
  1 < 2 /\
  (forall n, 1 <= n <= 2 -> scrapable_at three_pages n = true) /\
  (forall n, 1 <= n < 2 -> next_at three_pages n = true) /\
  (Z.to_nat (2 - 1) < 2)%nat /\
  fst (scrape_mh_data 2 (init three_pages true false 1 (Some 2))) =
    Return (bundle_of three_pages (page_range 1 (Z.to_nat (2 - 1 + 1)))) /\
  current_page (snd (scrape_mh_data 2 (init three_pages true false 1 (Some 2))))
    = 2 /\
  location
    (driver (snd (scrape_mh_data 2 (init three_pages true false 1 (Some 2)))))
    = Some 2.
Proof.
  assert (H1 : forall n, 1 <= n <= 2 -> scrapable_at three_pages n = true).
  { intros n Hn. assert (n = 1 \/ n = 2) as [-> | ->] by lia; reflexivity. }
  assert (H2 : forall n, 1 <= n < 2 -> next_at three_pages n = true).
  { intros n Hn. assert (n = 1) as -> by lia. reflexivity. }
  split; [lia|]. split; [exact H1|]. split; [exact H2|].
  split; [simpl; lia|].
  apply (bounded_run_scrapes_start_to_stop three_pages 1 2 2);
    [lia | exact H1 | exact H2 | simpl; lia].
Defined.

(** ** Test mode *)

(** C3, as stated, fails: test mode, start page 1, a listing of three
    pages without failures, and the stop page set to 1.  The stop-page
    check fires after page 1: the run returns the records of page 1 only
    ([bundle_of three_pages [1]]), and no amount of iterations makes it
    return those of pages 1 and 2. *)
Lemma test_run_with_stop_page_1_scrapes_page_1_only :
  run 2 three_pages true true 1 (Some 1) =
    Return (bundle_of three_pages [1]) /\
  current_page (snd (scrape_mh_data 2 (init three_pages true true 1 (Some 1))))
    = 1 /\
  ~ exists fuel : nat,
      run fuel three_pages true true 1 (Some 1) =
      Return (bundle_of three_pages [1; 2]).
Proof.
  split; [vm_compute; reflexivity|]. split; [vm_compute; reflexivity|].
  intros [fuel H]. destruct fuel as [|fuel]; vm_compute in H; discriminate.
Qed.

(** C3, amended: in test mode with start page 1 and a stop page that is
    unset or other than 1, on a listing whose pages 1 and 2 carry the
    table and whose page 1 carries the next link, the run goes through
    pages 1 and 2 and ends there (two iterations are enough): the test
    check fires after page 2, where the counter modulo 3 is 2, and the
    bundle is [bundle_of website [1; 2]]: for every kind the records the
    buttons of page 1 and then of page 2 yield, and nothing else. *)
Theorem test_run_scrapes_pages_1_and_2
    (website : Listing) (stop : option Z) (fuel : nat) :
  stop <> Some 1 ->
  scrapable_at website 1 = true -> next_at website 1 = true ->
  scrapable_at website 2 = true ->
  (2 <= fuel)%nat ->
  let s0 := init website true true 1 stop in
  fst (scrape_mh_data fuel s0) =
    Return (bundle_of website [1; 2]) /\
  current_page (snd (scrape_mh_data fuel s0)) = 2 /\
  location (driver (snd (scrape_mh_data fuel s0))) = Some 2 /\
  test_conditions_met (snd (scrape_mh_data fuel s0)) = true.
Proof.
  intros Hstop Hs1 Hn1 Hs2 Hfuel s0.
  destruct (step_next website 1 s0) as (s2 & E & Hsync2 & Ht2 & Hst2 & Hc2).
  - apply init_in_sync.
  - exact Hs1.
  - reflexivity.
  - unfold stop_page_conditions_met.
    change (stop_page s0) with stop. change (current_page s0) with 1.
    destruct stop as [q|]; [|reflexivity].
    apply Z.eqb_neq. congruence.
  - exact Hn1.
  - assert (Htest2 : test_conditions_met s2 = true).
    { unfold test_conditions_met. rewrite Ht2.
      destruct Hsync2 as (_ & _ & ->). reflexivity. }
    destruct (step_break website 2 s2 Hsync2 Hs2) as (s3 & E3 & Hsync3 & Hc3).
    { rewrite Htest2. reflexivity. }
    assert (Hrun : while_True fuel s0 = (Return tt, s3)).
    { apply (while_True_fuel_mono 2); [|exact Hfuel].
      rewrite while_True_S, E, while_True_S, E3. reflexivity. }
    rewrite (scrape_mh_data_returns fuel s0 s3 Hrun). cbn [fst snd].
    destruct Hsync3 as (Hl & Hloc & Hcur).
    split; [|split; [exact Hcur|split; [exact Hloc|]]].
    + f_equal. apply full_data_bundle_of. intros k.
      rewrite Hc3, Hc2. unfold s0. rewrite init_collection.
      rewrite (records_on_cons website k 1 [2]). reflexivity.
    + unfold test_conditions_met in *.
      assert (Hts : test s3 = test s2).
      { destruct (scrapable_at_buttons website 2 Hs2) as (pg & Hpg & Hbs).
        unfold iteration_result in E3.
        rewrite (in_sync_shown website 2 s2 Hsync2), Hpg, Hbs in E3.
        unfold test_conditions_met in E3. rewrite Htest2 in E3.
        injection E3 as <-.
        apply (extract_view_buttons_data_frame (buttons_at website 2) s2). }
      rewrite Hts, Hcur. apply andb_true_iff in Htest2.
      destruct Htest2 as [-> _]. reflexivity.
Qed.

Lemma test_run_scrapes_pages_1_and_2_witness :
  None <> Some 1 /\
  scrapable_at three_pages 1 = true /\ next_at three_pages 1 = true /\
  scrapable_at three_pages 2 = true /\ (2 <= 4)%nat /\
  fst (scrape_mh_data 4 (init three_pages true true 1 None)) =
    Return (bundle_of three_pages [1; 2]) /\
  current_page (snd (scrape_mh_data 4 (init three_pages true true 1 None)))
    = 2 /\
  location (driver (snd (scrape_mh_data 4 (init three_pages true true 1 None))))
    = Some 2 /\
  test_conditions_met
    (snd (scrape_mh_data 4 (init three_pages true true 1 None))) = true.
Proof.
  split; [discriminate|]. do 3 (split; [reflexivity|]). split; [lia|].
  apply (test_run_scrapes_pages_1_and_2 three_pages None 4);
    [discriminate | reflexivity | reflexivity | reflexivity | lia].
Defined.

(** ** The page-advance step *)



(** The same step on the last page of the listing, where the link is
    absent: the run ends there. *)
Example last_page_ends_run :
  run 1 [page_of [lagos_button] false] true false 1 None =
  Return (bundle_of [page_of [lagos_button] false] [1]).
Proof. vm_compute. reflexivity. Qed.

(** ** A page without pagination bar *)

Lemma while_True_no_pagination (fuel : nat) :
  forall (s : MHScrapper) (p : Page),
    shown (driver s) = Some p -> pagination p = None ->
    test_conditions_met s = false -> stop_page_conditions_met s = false ->
    fst (while_True fuel s) = Diverge.
Proof.
  induction fuel as [|fuel IH]; intros s p Hp Hbar Ht Hs; [reflexivity|].
  rewrite while_True_S. unfold iteration_result. rewrite Hp.
  destruct (buttons_of p) as [bs|].
  - rewrite Ht, Hs, Hbar.
    destruct (extract_view_buttons_data_frame bs s) as (F1 & F2 & F3 & F4).
    cbv zeta in *.
    destruct (conditions_frame s _ F1 F2 F3) as [C1 C2].
    apply (IH _ p); congruence.
  - apply (IH s p); assumption.
Qed.

(** C9, as stated, fails: page 2 of the listing has no pagination bar,
    and a run with the default arguments (test mode, start page 1, no
    stop page) still ends: the test check fires after page 2, before the
    page-advance step, and the run returns the records of pages 1 and
    2. *)
Lemma run_returns_despite_missing_pagination :
  option_map pagination (page_at bar_missing_on_page_2 2) = Some None /\
  run 2 bar_missing_on_page_2 true true 1 None =
    Return (bundle_of bar_missing_on_page_2 [1; 2]) /\
  current_page
    (snd (scrape_mh_data 2 (init bar_missing_on_page_2 true true 1 None)))
    = 2.
Proof. vm_compute. repeat split. Qed.

(** C9, amended: on a page without the pagination bar on which neither
    stop check fires, so that the page-advance step is reached: the
    lookup of the bar raises
    [NoSuchElementException] out of [get_next_page]; the handler of the
    loop catches it and asks for the next iteration with the browser, the
    counter and the settings where they were; and the run does not end,
    whatever the number of iterations it is given. *)
Theorem missing_pagination_retries_forever
    (s : MHScrapper) (p : Page) :
  shown (driver s) = Some p -> pagination p = None ->
  test_conditions_met s = false -> stop_page_conditions_met s = false ->
  get_next_page s = (Raise NoSuchElementException, s) /\
  (exists s',
      iteration s = (Return NextIteration, s') /\
      driver s' = driver s /\ current_page s' = current_page s /\
      stop_page s' = stop_page s /\ test s' = test s) /\
  forall fuel, fst (scrape_mh_data fuel s) = Diverge.
Proof.
  intros Hp Hbar Ht Hs. split; [|split].
  - rewrite get_next_page_run, Hp, Hbar. reflexivity.
  - rewrite iteration_run. unfold iteration_result. rewrite Hp.
    destruct (buttons_of p) as [bs|].
    + rewrite Ht, Hs, Hbar. eexists. split; [reflexivity|].
      destruct (extract_view_buttons_data_frame bs s) as (F1 & F2 & F3 & F4).
      auto.
    + eexists. split; [reflexivity|]. auto.
  - intros fuel. rewrite scrape_mh_data_run.
    pose proof (while_True_no_pagination fuel s p Hp Hbar Ht Hs) as H.
    destruct (while_True fuel s) as [o s']. cbn [fst] in H. subst o.
    reflexivity.
Qed.

Lemma missing_pagination_retries_forever_witness :
  shown (driver (init [bare_page] true false 1 None)) = Some bare_page /\
  pagination bare_page = None /\
  test_conditions_met (init [bare_page] true false 1 None) = false /\
  stop_page_conditions_met (init [bare_page] true false 1 None) = false /\
  get_next_page (init [bare_page] true false 1 None) =
    (Raise NoSuchElementException, init [bare_page] true false 1 None) /\
  (exists s',
      iteration (init [bare_page] true false 1 None) =
        (Return NextIteration, s') /\
      driver s' = driver (init [bare_page] true false 1 None) /\
      current_page s' = current_page (init [bare_page] true false 1 None) /\
      stop_page s' = stop_page (init [bare_page] true false 1 None) /\
      test s' = test (init [bare_page] true false 1 None)) /\
  forall fuel,
    fst (scrape_mh_data fuel (init [bare_page] true false 1 None)) = Diverge.
Proof.
  do 4 (split; [reflexivity|]).
  apply (missing_pagination_retries_forever
           (init [bare_page] true false 1 None) bare_page); reflexivity.
Defined.

(** Each retry goes through the page again: the rows of the page pile up
    in the collections. *)
Example missing_pagination_duplicates_rows :
  List.length (page_rows (snd (while_True 3 (init [bare_page] true false 1 None))))
  = 3%nat.
Proof. vm_compute. reflexivity. Qed.

(** ** The stop page in test mode *)

(** C10: in test mode, on a page that carries the table, with the stop
    page equal to the current page and the current page modulo 3 other
    than 2: the test check, evaluated first, does not fire, the stop-page
    check does, and the run ends after this page with its records. *)
Theorem stop_page_checked_in_test_mode
    (s : MHScrapper) (p : Page) (bs : list WebElement) :
  test s = true -> stop_page s = Some (current_page s) ->
  current_page s mod 3 <> 2 ->
  shown (driver s) = Some p -> buttons_of p = Some bs ->
  let s1 := snd (extract_view_buttons_data bs s) in
  test_conditions_met s = false /\ stop_page_conditions_met s = true /\
  iteration s = (Return Break, s1) /\
  current_page s1 = current_page s /\ driver s1 = driver s /\
  forall fuel, scrape_mh_data (S fuel) s = (Return (full_data s1), s1).
Proof.
  intros Ht Hstop Hmod Hp Hbs s1.
  assert (Htc : test_conditions_met s = false).
  { unfold test_conditions_met. rewrite Ht. apply Z.eqb_neq. exact Hmod. }
  assert (Hsc : stop_page_conditions_met s = true).
  { unfold stop_page_conditions_met. rewrite Hstop. apply Z.eqb_refl. }
  assert (Hiter : iteration_result s = (Return Break, s1)).
  { unfold iteration_result. rewrite Hp, Hbs, Htc, Hsc. reflexivity. }
  destruct (extract_view_buttons_data_frame bs s) as (F1 & _ & _ & F4).
  repeat split; try assumption.
  - rewrite iteration_run. exact Hiter.
  - intros fuel. apply scrape_mh_data_returns.
    rewrite while_True_S, Hiter. reflexivity.
Qed.

Lemma stop_page_checked_in_test_mode_witness :
  test (init three_pages true true 1 (Some 1)) = true /\
  stop_page (init three_pages true true 1 (Some 1)) =
    Some (current_page (init three_pages true true 1 (Some 1))) /\
  current_page (init three_pages true true 1 (Some 1)) mod 3 <> 2 /\
  shown (driver (init three_pages true true 1 (Some 1))) =
    Some (page_of [lagos_button] true) /\
  buttons_of (page_of [lagos_button] true) = Some [lagos_button] /\
  test_conditions_met (init three_pages true true 1 (Some 1)) = false /\
  stop_page_conditions_met (init three_pages true true 1 (Some 1)) = true /\
  iteration (init three_pages true true 1 (Some 1)) =
    (Return Break,
     snd (extract_view_buttons_data [lagos_button]
            (init three_pages true true 1 (Some 1)))) /\
  current_page
    (snd (extract_view_buttons_data [lagos_button]
            (init three_pages true true 1 (Some 1)))) =
    current_page (init three_pages true true 1 (Some 1)) /\
  driver
    (snd (extract_view_buttons_data [lagos_button]
            (init three_pages true true 1 (Some 1)))) =
    driver (init three_pages true true 1 (Some 1)) /\
  forall fuel,
    scrape_mh_data (S fuel) (init three_pages true true 1 (Some 1)) =
    (Return
       (full_data
          (snd (extract_view_buttons_data [lagos_button]
                  (init three_pages true true 1 (Some 1))))),
     snd (extract_view_buttons_data [lagos_button]
            (init three_pages true true 1 (Some 1)))).
Proof.
  do 2 (split; [reflexivity|]). split; [vm_compute; discriminate|].
  do 2 (split; [reflexivity|]).
  apply (stop_page_checked_in_test_mode
           (init three_pages true true 1 (Some 1))
           (page_of [lagos_button] true) [lagos_button]);
    try reflexivity.
  vm_compute. discriminate.
Defined.

(** * Further properties of the scraper *)

(** ** Invariants of the loop *)

Lemma scrape_mh_data_state (fuel : nat) (s : MHScrapper) :
  snd (scrape_mh_data fuel s) = snd (while_True fuel s).
Proof.
  rewrite scrape_mh_data_run.
  destruct (while_True fuel s) as [[| |] s']; reflexivity.
Qed.

(** What every pass over a row and every page turn keep, the loop keeps. *)
Lemma while_True_invariant (I : MHScrapper -> Prop) :
  (forall b s, I s -> I (snd (extract_data b s))) ->
  (forall s, I s -> I (snd (click_and_count s))) ->
  forall (fuel : nat) (s : MHScrapper), I s -> I (snd (while_True fuel s)).
Proof.
  intros Hrow Hclick.
  assert (Hbuttons : forall bs s, I s ->
                       I (snd (extract_view_buttons_data bs s))).
  { intros bs s Hs. rewrite extract_view_buttons_data_run. cbn [snd].
    revert s Hs. induction bs as [|b bs IH]; intros s Hs; cbn [fold_left].
    - exact Hs.
    - apply IH. apply Hrow. exact Hs. }
  assert (Hiter : forall s, I s -> I (snd (iteration_result s))).
  { intros s Hs. unfold iteration_result.
    destruct (shown (driver s)) as [p|]; [|exact Hs].
    destruct (buttons_of p) as [bs|]; [|exact Hs].
    pose proof (Hbuttons bs s Hs) as H1.
    destruct (test_conditions_met s); [exact H1|].
    destruct (stop_page_conditions_met s); [exact H1|].
    destruct (pagination p) as [bar|]; [|exact H1].
    destruct (next_link bar); [apply Hclick|]; exact H1. }
  induction fuel as [|fuel IH]; intros s Hs; [exact Hs|].
  rewrite while_True_S. pose proof (Hiter s Hs) as H1.
  destruct (iteration_result_returns s) as (x & s' & E). rewrite E in *.
  cbn [snd] in H1. destruct x; [exact H1|]. apply IH. exact H1.
Qed.

(** X1: a run only ever appends.  Whatever the instance holds when
    [scrape_mh_data] is called is still there, in the same order, at the
    front of each collection afterwards, whether the loop has ended or
    not. *)
Theorem collections_only_grow (fuel : nat) (s : MHScrapper) (k : kind) :
  exists ds : list dict,
    collection k (snd (scrape_mh_data fuel s)) = collection k s ++ ds.
Proof.
  rewrite scrape_mh_data_state.
  apply (while_True_invariant
           (fun s' => exists ds, collection k s' = collection k s ++ ds)).
  - intros b s' [ds H]. exists (ds ++ added k b).
    rewrite extract_data_collection, H. symmetry. apply app_assoc.
  - intros s' [ds H]. exists ds. rewrite click_and_count_collection. exact H.
  - exists []. symmetry. apply app_nil_r.
Qed.

Lemma added_length (k : kind) (b : WebElement) :
  List.length (added k b) =
  if (kind_index k <? completed kinds b)%nat then 1%nat else 0%nat.
Proof.
  unfold added. destruct (kind_index k <? completed kinds b)%nat; reflexivity.
Qed.

Lemma extract_data_ordered_lengths (b : WebElement) (s : MHScrapper) :
  ordered_lengths s -> ordered_lengths (snd (extract_data b s)).
Proof.
  unfold ordered_lengths.
  generalize (extract_data_collection b s PageRow)
    (extract_data_collection b s Identifier)
    (extract_data_collection b s Location)
    (extract_data_collection b s Contact)
    (extract_data_collection b s Status)
    (extract_data_collection b s Service)
    (extract_data_collection b s Personnel).
  cbn [collection]. intros -> -> -> -> -> -> ->.
  rewrite !length_app, !added_length. cbn [kind_index].
  destruct (completed kinds b) as [|[|[|[|[|[|[|n]]]]]]]; cbn; lia.
Qed.

(** X2: in the instance a run leaves, and so in the bundle it returns,
    no collection is longer than the one [extract_data] fills before it:
    personnel, services, status, contacts, locations, identifiers,
    page_rows, from shortest to longest.  A row that fails part-way is
    missing from a tail of that sequence, never from its middle. *)
Theorem collections_lengths_ordered
    (fuel : nat) (website : Listing) (up t : bool) (start_page : Z)
    (stop : option Z) :
  ordered_lengths
    (snd (scrape_mh_data fuel (init website up t start_page stop))).
Proof.
  rewrite scrape_mh_data_state. apply while_True_invariant.
  - intros b s. apply extract_data_ordered_lengths.
  - intros s H. exact H.
  - unfold ordered_lengths. cbn. lia.
Qed.

(** ** The shape of the records *)

Lemma record_of_keys (k : kind) (b : WebElement) :
  map fst (record_of k b) = keys_of k.
Proof.
  unfold record_of, keys_of. rewrite map_map. reflexivity.
Qed.

Lemma added_keys (k : kind) (b : WebElement) (d : dict) :
  In d (added k b) -> map fst d = keys_of k.
Proof.
  unfold added. destruct (kind_index k <? completed kinds b)%nat.
  - intros [<- | []]. apply record_of_keys.
  - intros [].
Qed.

(** X3: every record a run puts into the collection of a kind has
    exactly the keys of that kind's dict literal, in its order (eight for
    a page row, five for a contact, and so on), whatever attributes the
    buttons carry and whichever reads fail. *)
Theorem records_have_the_keys_of_their_kind
    (fuel : nat) (website : Listing) (up t : bool) (start_page : Z)
    (stop : option Z) (k : kind) (d : dict) :
  In d (collection k
          (snd (scrape_mh_data fuel (init website up t start_page stop)))) ->
  map fst d = keys_of k.
Proof.
  rewrite scrape_mh_data_state. revert d.
  apply (while_True_invariant
           (fun s => forall d, In d (collection k s) -> map fst d = keys_of k)).
  - intros b s H d. rewrite extract_data_collection. intros Hd.
    apply in_app_or in Hd. destruct Hd as [Hd|Hd];
      [apply H; exact Hd | apply (added_keys k b); exact Hd].
  - intros s H d. rewrite click_and_count_collection. apply H.
  - intros d. destruct k; intros [].
Qed.

Lemma records_have_the_keys_of_their_kind_witness :
  In (record_of Contact lagos_button)
     (collection Contact
        (snd (scrape_mh_data 2 (init three_pages true true 1 None)))) /\
  map fst (record_of Contact lagos_button) =
  ["facility_uid"; "phone_number"; "alternate_number"; "email_address";
   "website"].
Proof.
  assert (H : In (record_of Contact lagos_button)
                (collection Contact
                   (snd (scrape_mh_data 2
                           (init three_pages true true 1 None))))).
  { vm_compute. left. reflexivity. }
  split; [exact H|].
  exact (records_have_the_keys_of_their_kind 2 three_pages true true 1 None
           Contact (record_of Contact lagos_button) H).
Defined.

Lemma readable_added (k : kind) (b : WebElement) :
  readable b = true -> added k b = [record_of k b].
Proof.
  intros H. unfold added. rewrite (readable_completed b H).
  destruct k; reflexivity.
Qed.

(** X4: over buttons whose reads all go through, the loop over the
    buttons adds to each of the seven collections exactly one record per
    button, in the order of the buttons: the i-th new record of every
    collection comes from the i-th button. *)
Theorem readable_rows_stay_aligned
    (buttons : list WebElement) (s : MHScrapper) (k : kind) :
  forallb readable buttons = true ->
  collection k (snd (extract_view_buttons_data buttons s)) =
  collection k s ++ map (record_of k) buttons.
Proof.
  intros H. rewrite extract_view_buttons_data_collection. f_equal.
  induction buttons as [|b bs IH]; [reflexivity|].
  cbn [forallb] in H. apply andb_true_iff in H. destruct H as [Hb Hbs].
  cbn [flat_map map]. rewrite (readable_added k b Hb), (IH Hbs). reflexivity.
Qed.

Lemma readable_rows_stay_aligned_witness :
  forallb readable [lagos_button; lagos_button] = true /\
  collection Status
    (snd (extract_view_buttons_data [lagos_button; lagos_button] fresh)) =
  collection Status fresh ++
  map (record_of Status) [lagos_button; lagos_button].
Proof.
  split; [reflexivity|].
  apply (readable_rows_stay_aligned [lagos_button; lagos_button] fresh Status).
  reflexivity.
Defined.

(** X5: nothing is done to the text of an attribute on its way into the
    record: on a button whose reads go through, a field filled from an
    attribute with text [v] holds exactly [v]. *)
Theorem attribute_text_is_copied_verbatim
    (b : WebElement) (s : MHScrapper) (k : kind) (key a v : string) :
  readable b = true -> In (key, a) (field_source k) ->
  find_attribute (attributes b) a = Some (Text v) ->
  exists d : dict,
    collection k (snd (extract_data b s)) = collection k s ++ [d] /\
    dict_get d key = Some (Some v).
Proof.
  intros Hr Hin Hv. exists (record_of k b). split.
  - rewrite extract_data_collection, (readable_added k b Hr). reflexivity.
  - rewrite (record_of_field k b key a Hin). unfold attr_text. rewrite Hv.
    reflexivity.
Qed.

Lemma attribute_text_is_copied_verbatim_witness :
  readable lagos_button = true /\
  In ("facility_name", "data-facility_name") (field_source Identifier) /\
  find_attribute (attributes lagos_button) "data-facility_name" =
    Some (Text "General Hospital") /\
  exists d : dict,
    collection Identifier (snd (extract_data lagos_button fresh)) =
    collection Identifier fresh ++ [d] /\
    dict_get d "facility_name" = Some (Some "General Hospital").
Proof.
  assert (Hin : In ("facility_name", "data-facility_name")
                  (field_source Identifier)).
  { simpl. do 4 right. left. reflexivity. }
  split; [reflexivity|]. split; [exact Hin|]. split; [reflexivity|].
  apply (attribute_text_is_copied_verbatim lagos_button fresh Identifier
           "facility_name" "data-facility_name" "General Hospital");
    [reflexivity | exact Hin | reflexivity].
Defined.

(** ** The page counter and the browser *)



(** ** Runs from any start page *)

Lemma stops_at_met (s : MHScrapper) :
  test_conditions_met s || stop_page_conditions_met s =
  stops_at (test s) (stop_page s) (current_page s).
Proof. reflexivity. Qed.

Lemma stops_at_not_met (s : MHScrapper) :
  stops_at (test s) (stop_page s) (current_page s) = false ->
  test_conditions_met s = false /\ stop_page_conditions_met s = false.
Proof. rewrite <- stops_at_met. apply orb_false_iff. Qed.

Lemma page_range_snoc (p : Z) (len : nat) :
  page_range p (S len) = page_range p len ++ [p + Z.of_nat len].
Proof.
  revert p. induction len as [|len IH]; intros p.
  - cbn. f_equal. lia.
  - change (page_range p (S (S len)))
      with (p :: page_range (p + 1) (S len)).
    rewrite IH. cbn [page_range app]. do 3 f_equal. lia.
Qed.

Lemma records_on_app (l : Listing) (k : kind) (ns ms : list Z) :
  records_on l k (ns ++ ms) = records_on l k ns ++ records_on l k ms.
Proof. unfold records_on. apply flat_map_app. Qed.

(** [len] pages on which no stop check fires and the next link is there:
    the loop goes through them and stands on the page after them. *)
Lemma walk_pages (l : Listing) (len : nat) :
  forall (p : Z) (s : MHScrapper) (fuel : nat),
    in_sync l p s ->
    (forall n, p <= n < p + Z.of_nat len ->
               stops_at (test s) (stop_page s) n = false) ->
    (forall n, p <= n < p + Z.of_nat len -> scrapable_at l n = true) ->
    (forall n, p <= n < p + Z.of_nat len -> next_at l n = true) ->
    exists s',
      while_True (len + fuel) s = while_True fuel s' /\
      in_sync l (p + Z.of_nat len) s' /\
      test s' = test s /\ stop_page s' = stop_page s /\
      forall k,
        collection k s' = collection k s ++ records_on l k (page_range p len).
Proof.
  induction len as [|len IH]; intros p s fuel Hsync Hstop Hscr Hnext.
  - exists s. rewrite Z.add_0_r. repeat split; try apply Hsync.
    intros k. cbn. symmetry. apply app_nil_r.
  - destruct (stops_at_not_met s) as [Ht Hs].
    { destruct Hsync as (_ & _ & ->). apply Hstop. lia. }
    destruct (step_next l p s Hsync) as (s2 & E & Hs2 & Ht2 & Hst2 & Hc2);
      [apply Hscr; lia | exact Ht | exact Hs | apply Hnext; lia |].
    destruct (IH (p + 1) s2 fuel Hs2) as (s' & E' & Hs' & Ht' & Hst' & Hc').
    + intros n Hn. rewrite Ht2, Hst2. apply Hstop. lia.
    + intros n Hn. apply Hscr. lia.
    + intros n Hn. apply Hnext. lia.
    + exists s'. split; [|split; [|split; [|split]]].
      * cbn [Nat.add]. rewrite while_True_S, E. exact E'.
      * replace (p + Z.of_nat (S len)) with (p + 1 + Z.of_nat len) by lia.
        exact Hs'.
      * congruence.
      * congruence.
      * intros k. rewrite Hc', Hc2.
        change (page_range p (S len)) with (p :: page_range (p + 1) len).
        rewrite (records_on_cons l k p (page_range (p + 1) len)).
        symmetry. apply app_assoc.
Qed.

(** An iteration on the last page: scraped, no stop check fires, the bar
    is there and has no next link; the loop is left. *)
Lemma step_last (l : Listing) (p : Z) (s : MHScrapper) :
  in_sync l p s -> scrapable_at l p = true ->
  stops_at (test s) (stop_page s) (current_page s) = false ->
  last_at l p = true ->
  exists s1,
    iteration_result s = (Return Break, s1) /\ in_sync l p s1 /\
    forall k, collection k s1 = collection k s ++ records_on l k [p].
Proof.
  intros Hsync Hscr Hstop Hlast.
  destruct (stops_at_not_met s Hstop) as [Ht Hs].
  destruct (scrapable_at_buttons l p Hscr) as (pg & Hpg & Hbs).
  unfold iteration_result.
  rewrite (in_sync_shown l p s Hsync), Hpg, Hbs, Ht, Hs.
  unfold last_at in Hlast. rewrite Hpg in Hlast.
  destruct (pagination pg) as [bar|]; [|discriminate].
  destruct (next_link bar); [discriminate|].
  eexists. split; [reflexivity|].
  destruct (extract_view_buttons_data_frame (buttons_at l p) s)
    as (F1 & F2 & F3 & F4).
  destruct Hsync as (Hl & Hloc & Hcur). cbv zeta in *.
  unfold in_sync. rewrite F1, F4. repeat split; try assumption.
  intros k. unfold records_on. cbn [flat_map]. rewrite app_nil_r.
  apply extract_view_buttons_data_collection.
Qed.

(** From [first] to the first page [q] on which a stop check fires. *)
Lemma run_to_stop (l : Listing) (first q : Z) (s : MHScrapper) (fuel : nat) :
  in_sync l first s -> first <= q ->
  (forall n, first <= n < q -> stops_at (test s) (stop_page s) n = false) ->
  stops_at (test s) (stop_page s) q = true ->
  (forall n, first <= n <= q -> scrapable_at l n = true) ->
  (forall n, first <= n < q -> next_at l n = true) ->
  (Z.to_nat (q - first) < fuel)%nat ->
  exists s',
    while_True fuel s = (Return tt, s') /\ in_sync l q s' /\
    forall k,
      collection k s' =
      collection k s ++
      records_on l k (page_range first (S (Z.to_nat (q - first)))).
Proof.
  intros Hsync Hle Hno Hyes Hscr Hnext Hfuel.
  set (len := Z.to_nat (q - first)) in *.
  assert (Hq : first + Z.of_nat len = q) by (unfold len; lia).
  destruct (walk_pages l len first s (fuel - len) Hsync)
    as (s1 & E1 & Hs1 & Ht1 & Hst1 & Hc1).
  - intros n Hn. apply Hno. lia.
  - intros n Hn. apply Hscr. lia.
  - intros n Hn. apply Hnext. lia.
  - rewrite Hq in Hs1.
    destruct (step_break l q s1 Hs1) as (s2 & E2 & Hs2 & Hc2).
    + apply Hscr. lia.
    + rewrite stops_at_met, Ht1, Hst1.
      destruct Hs1 as (_ & _ & ->). exact Hyes.
    + exists s2. split; [|split; [exact Hs2|]].
      * replace fuel with (len + (fuel - len))%nat by lia. rewrite E1.
        destruct (fuel - len)%nat as [|f] eqn:Ef; [lia|].
        rewrite while_True_S, E2. reflexivity.
      * intros k. rewrite Hc2, Hc1, page_range_snoc, records_on_app, Hq.
        symmetry. apply app_assoc.
Qed.

(** From [first] to the page [last] without next link, no stop check
    firing on the way. *)
Lemma run_to_last (l : Listing) (first last : Z) (s : MHScrapper)
    (fuel : nat) :
  in_sync l first s -> first <= last ->
  (forall n, first <= n <= last ->
             stops_at (test s) (stop_page s) n = false) ->
  (forall n, first <= n <= last -> scrapable_at l n = true) ->
  (forall n, first <= n < last -> next_at l n = true) ->
  last_at l last = true ->
  (Z.to_nat (last - first) < fuel)%nat ->
  exists s',
    while_True fuel s = (Return tt, s') /\ in_sync l last s' /\
    forall k,
      collection k s' =
      collection k s ++
      records_on l k (page_range first (S (Z.to_nat (last - first)))).
Proof.
  intros Hsync Hle Hno Hscr Hnext Hlast Hfuel.
  set (len := Z.to_nat (last - first)) in *.
  assert (Hq : first + Z.of_nat len = last) by (unfold len; lia).
  destruct (walk_pages l len first s (fuel - len) Hsync)
    as (s1 & E1 & Hs1 & Ht1 & Hst1 & Hc1).
  - intros n Hn. apply Hno. lia.
  - intros n Hn. apply Hscr. lia.
  - intros n Hn. apply Hnext. lia.
  - rewrite Hq in Hs1.
    destruct (step_last l last s1 Hs1) as (s2 & E2 & Hs2 & Hc2).
    + apply Hscr. lia.
    + rewrite Ht1, Hst1. destruct Hs1 as (_ & _ & ->). apply Hno. lia.
    + exact Hlast.
    + exists s2. split; [|split; [exact Hs2|]].
      * replace fuel with (len + (fuel - len))%nat by lia. rewrite E1.
        destruct (fuel - len)%nat as [|f] eqn:Ef; [lia|].
        rewrite while_True_S, E2. reflexivity.
      * intros k. rewrite Hc2, Hc1, page_range_snoc, records_on_app, Hq.
        symmetry. apply app_assoc.
Qed.

Lemma test_turns_spec (start_page : Z) :
  (test_turns start_page < 3)%nat /\
  (start_page + Z.of_nat (test_turns start_page)) mod 3 = 2 /\
  forall n, start_page <= n < start_page + Z.of_nat (test_turns start_page) ->
            n mod 3 <> 2.
Proof.
  unfold test_turns.
  assert (H : 0 <= (2 - start_page) mod 3 < 3) by (apply Z.mod_pos_bound; lia).
  rewrite Z2Nat.id by lia. repeat split.
  - lia.
  - Z.div_mod_to_equations. lia.
  - intros n Hn. Z.div_mod_to_equations. lia.
Qed.

(** X7: a test run from any start page, with no stop page set, on pages
    that carry the table and the next link: the run goes through the
    pages from the start page up to the first page whose number modulo 3
    is 2 and ends there, returning the records the buttons of exactly
    these pages yield ([bundle_of]); that is at most three pages (three
    when the start page is a multiple of 3, one when it is 2 modulo 3). *)
Theorem test_run_scrapes_at_most_three_pages
    (website : Listing) (start_page : Z) (fuel : nat) :
  (forall n, start_page <= n <= start_page + Z.of_nat (test_turns start_page) ->
             scrapable_at website n = true) ->
  (forall n, start_page <= n < start_page + Z.of_nat (test_turns start_page) ->
             next_at website n = true) ->
  (test_turns start_page < fuel)%nat ->
  fst (scrape_mh_data fuel (init website true true start_page None)) =
    Return (bundle_of website
              (page_range start_page (S (test_turns start_page)))) /\
  (S (test_turns start_page) <= 3)%nat /\
  current_page
    (snd (scrape_mh_data fuel (init website true true start_page None)))
    mod 3 = 2.
Proof.
  intros Hscr Hnext Hfuel.
  destruct (test_turns_spec start_page) as (Hlt & Hmod & Hno).
  set (s0 := init website true true start_page None).
  set (q := start_page + Z.of_nat (test_turns start_page)) in *.
  assert (Hq : Z.to_nat (q - start_page) = test_turns start_page)
    by (unfold q; lia).
  destruct (run_to_stop website start_page q s0 fuel)
    as (s' & E & (Hl & Hloc & Hcur) & Hc).
  - apply init_in_sync.
  - unfold q. lia.
  - intros n Hn. unfold stops_at. cbn [test stop_page s0 init].
    rewrite orb_false_r. apply Z.eqb_neq. apply Hno. exact Hn.
  - unfold stops_at. cbn [test stop_page s0 init].
    rewrite orb_false_r. apply Z.eqb_eq. exact Hmod.
  - exact Hscr.
  - exact Hnext.
  - rewrite Hq. exact Hfuel.
  - rewrite (scrape_mh_data_returns fuel s0 s' E). cbn [fst snd].
    split; [|split; [lia|rewrite Hcur; exact Hmod]].
    f_equal. apply full_data_bundle_of. intros k.
    rewrite Hc, Hq. unfold s0. rewrite init_collection. reflexivity.
Qed.

Lemma test_run_scrapes_at_most_three_pages_witness :
  (forall n, 3 <= n <= 3 + Z.of_nat (test_turns 3) ->
             scrapable_at five_pages n = true) /\
  (forall n, 3 <= n < 3 + Z.of_nat (test_turns 3) ->
             next_at five_pages n = true) /\
  (test_turns 3 < 4)%nat /\
  fst (scrape_mh_data 4 (init five_pages true true 3 None)) =
    Return (bundle_of five_pages (page_range 3 (S (test_turns 3)))) /\
  (S (test_turns 3) <= 3)%nat /\
  current_page (snd (scrape_mh_data 4 (init five_pages true true 3 None)))
    mod 3 = 2.
Proof.
  assert (H1 : forall n, 3 <= n <= 3 + Z.of_nat (test_turns 3) ->
                         scrapable_at five_pages n = true).
  { intros n Hn. change (test_turns 3) with 2%nat in Hn.
    assert (n = 3 \/ n = 4 \/ n = 5) as [-> | [-> | ->]] by lia;
      reflexivity. }
  assert (H2 : forall n, 3 <= n < 3 + Z.of_nat (test_turns 3) ->
                         next_at five_pages n = true).
  { intros n Hn. change (test_turns 3) with 2%nat in Hn.
    assert (n = 3 \/ n = 4) as [-> | ->] by lia; reflexivity. }
  assert (H3 : (test_turns 3 < 4)%nat).
  { change (test_turns 3) with 2%nat. lia. }
  split; [exact H1|]. split; [exact H2|]. split; [exact H3|].
  exact (test_run_scrapes_at_most_three_pages five_pages 3 4 H1 H2 H3).
Defined.

(** X8: not in test mode and with no stop page, on a listing whose pages
    from the start page to [last] carry the table, whose pages before
    [last] carry the next link and whose page [last] has the pagination
    bar without that link: the run goes through every page from the start
    page to [last], each once and in order, and ends there; the bundle it
    returns is [bundle_of]: for every kind the records the buttons of
    these pages yield, page after page and row after row. *)
Theorem full_run_reaches_last_page
    (website : Listing) (first_page last : Z) (fuel : nat) :
  first_page <= last ->
  (forall n, first_page <= n <= last -> scrapable_at website n = true) ->
  (forall n, first_page <= n < last -> next_at website n = true) ->
  last_at website last = true ->
  (Z.to_nat (last - first_page) < fuel)%nat ->
  fst (scrape_mh_data fuel (init website true false first_page None)) =
    Return (bundle_of website
              (page_range first_page (S (Z.to_nat (last - first_page))))) /\
  current_page
    (snd (scrape_mh_data fuel (init website true false first_page None)))
    = last /\
  location
    (driver
       (snd (scrape_mh_data fuel (init website true false first_page None))))
    = Some last.
Proof.
  intros Hle Hscr Hnext Hlast Hfuel.
  set (s0 := init website true false first_page None).
  destruct (run_to_last website first_page last s0 fuel)
    as (s' & E & (Hl & Hloc & Hcur) & Hc);
    try assumption.
  - apply init_in_sync.
  - intros n _. reflexivity.
  - rewrite (scrape_mh_data_returns fuel s0 s' E). cbn [fst snd].
    split; [|split; assumption].
    f_equal. apply full_data_bundle_of. intros k.
    rewrite Hc. unfold s0. rewrite init_collection. reflexivity.
Qed.

Lemma full_run_reaches_last_page_witness :
  2 <= 5 /\
  (forall n, 2 <= n <= 5 -> scrapable_at five_pages n = true) /\
  (forall n, 2 <= n < 5 -> next_at five_pages n = true) /\
  last_at five_pages 5 = true /\
  (Z.to_nat (5 - 2) < 4)%nat /\
  fst (scrape_mh_data 4 (init five_pages true false 2 None)) =
    Return (bundle_of five_pages (page_range 2 (S (Z.to_nat (5 - 2))))) /\
  current_page (snd (scrape_mh_data 4 (init five_pages true false 2 None)))
    = 5 /\
  location
    (driver (snd (scrape_mh_data 4 (init five_pages true false 2 None))))
    = Some 5.
Proof.
  assert (H1 : forall n, 2 <= n <= 5 -> scrapable_at five_pages n = true).
  { intros n Hn.
    assert (n = 2 \/ n = 3 \/ n = 4 \/ n = 5) as [-> | [-> | [-> | ->]]]
      by lia; reflexivity. }
  assert (H2 : forall n, 2 <= n < 5 -> next_at five_pages n = true).
  { intros n Hn.
    assert (n = 2 \/ n = 3 \/ n = 4) as [-> | [-> | ->]] by lia;
      reflexivity. }
  assert (H3 : (Z.to_nat (5 - 2) < 4)%nat) by (simpl; lia).
  split; [lia|]. split; [exact H1|]. split; [exact H2|].
  split; [reflexivity|]. split; [exact H3|].
  apply (full_run_reaches_last_page five_pages 2 5 4);
    [lia | exact H1 | exact H2 | reflexivity | exact H3].
Defined.



(** ** Retries and repeated calls *)

Lemma iteration_result_settings (s : MHScrapper) :
  test (snd (iteration_result s)) = test s /\
  stop_page (snd (iteration_result s)) = stop_page s.
Proof.
  unfold iteration_result.
  destruct (shown (driver s)) as [p|]; [|auto].
  destruct (buttons_of p) as [bs|]; [|auto].
  destruct (extract_view_buttons_data_frame bs s) as (_ & F2 & F3 & _).
  cbv zeta in *.
  destruct (test_conditions_met s); [auto|].
  destruct (stop_page_conditions_met s); [auto|].
  destruct (pagination p) as [bar|]; [|auto].
  destruct (next_link bar); auto.
Qed.

(** X10: on a page without the pagination bar, every retry of the loop
    goes through the page again: after [n] iterations each collection has
    grown by [n] copies of what one pass over the page's buttons adds.
    The retried page is scraped over and over, not skipped. *)
Theorem retries_append_the_page_again
    (n : nat) (s : MHScrapper) (p : Page) (bs : list WebElement) (k : kind) :
  shown (driver s) = Some p -> buttons_of p = Some bs ->
  pagination p = None ->
  test_conditions_met s = false -> stop_page_conditions_met s = false ->
  collection k (snd (scrape_mh_data n s)) =
  collection k s ++ List.concat (repeat (flat_map (added k) bs) n).
Proof.
  rewrite scrape_mh_data_state.
  revert s. induction n as [|n IH]; intros s Hp Hbs Hbar Ht Hs.
  - cbn. symmetry. apply app_nil_r.
  - rewrite while_True_S. unfold iteration_result.
    rewrite Hp, Hbs, Ht, Hs, Hbar.
    destruct (extract_view_buttons_data_frame bs s) as (F1 & F2 & F3 & F4).
    cbv zeta in *.
    destruct (conditions_frame s _ F1 F2 F3) as [C1 C2].
    rewrite IH; try congruence.
    rewrite extract_view_buttons_data_collection.
    cbn [repeat List.concat]. symmetry. apply app_assoc.
Qed.

Lemma retries_append_the_page_again_witness :
  shown (driver (init [bare_page] true false 1 None)) = Some bare_page /\
  buttons_of bare_page = Some [lagos_button] /\
  pagination bare_page = None /\
  test_conditions_met (init [bare_page] true false 1 None) = false /\
  stop_page_conditions_met (init [bare_page] true false 1 None) = false /\
  collection PageRow
    (snd (scrape_mh_data 3 (init [bare_page] true false 1 None))) =
  collection PageRow (init [bare_page] true false 1 None) ++
  List.concat (repeat (flat_map (added PageRow) [lagos_button]) 3).
Proof.
  do 5 (split; [reflexivity|]).
  apply (retries_append_the_page_again 3
           (init [bare_page] true false 1 None) bare_page [lagos_button]
           PageRow); reflexivity.
Defined.

(** X11: the collections belong to the instance and [scrape_mh_data] does
    not reset them.  On an instance that stands on a page where a stop
    check fires (as after a run that ended on its stop page), every
    further call scrapes that page once more and returns a bundle with
    its records appended again. *)
Theorem second_call_scrapes_the_page_again
    (l : Listing) (q : Z) (s : MHScrapper) (fuel1 fuel2 : nat) (k : kind) :
  in_sync l q s -> scrapable_at l q = true ->
  stops_at (test s) (stop_page s) (current_page s) = true ->
  fst (scrape_mh_data (S fuel2) (snd (scrape_mh_data (S fuel1) s))) =
    Return (full_data
              (snd (scrape_mh_data (S fuel2)
                      (snd (scrape_mh_data (S fuel1) s))))) /\
  collection k (snd (scrape_mh_data (S fuel1) s)) =
    collection k s ++ records_on l k [q] /\
  collection k (snd (scrape_mh_data (S fuel2)
                       (snd (scrape_mh_data (S fuel1) s)))) =
    collection k s ++ records_on l k [q] ++ records_on l k [q].
Proof.
  intros Hsync Hscr Hstop.
  destruct (step_break l q s Hsync Hscr) as (s1 & E1 & Hs1 & Hc1).
  { rewrite stops_at_met. exact Hstop. }
  destruct (iteration_result_settings s) as [T1 T2].
  rewrite E1 in T1, T2. cbn [snd] in T1, T2.
  assert (Hstop1 : stops_at (test s1) (stop_page s1) (current_page s1) = true).
  { rewrite T1, T2. destruct Hs1 as (_ & _ & ->).
    destruct Hsync as (_ & _ & <-). exact Hstop. }
  destruct (step_break l q s1 Hs1 Hscr) as (s2 & E2 & Hs2 & Hc2).
  { rewrite stops_at_met. exact Hstop1. }
  assert (R1 : while_True (S fuel1) s = (Return tt, s1)).
  { rewrite while_True_S, E1. reflexivity. }
  assert (R2 : while_True (S fuel2) s1 = (Return tt, s2)).
  { rewrite while_True_S, E2. reflexivity. }
  rewrite (scrape_mh_data_returns _ _ _ R1). cbn [snd].
  rewrite (scrape_mh_data_returns _ _ _ R2). cbn [fst snd].
  split; [reflexivity|]. split; [apply Hc1|].
  rewrite Hc2, Hc1. symmetry. apply app_assoc.
Qed.

Lemma second_call_scrapes_the_page_again_witness :
  in_sync three_pages 1 (init three_pages true false 1 (Some 1)) /\
  scrapable_at three_pages 1 = true /\
  stops_at (test (init three_pages true false 1 (Some 1)))
    (stop_page (init three_pages true false 1 (Some 1)))
    (current_page (init three_pages true false 1 (Some 1))) = true /\
  fst (scrape_mh_data 1
         (snd (scrape_mh_data 1 (init three_pages true false 1 (Some 1))))) =
    Return (full_data
              (snd (scrape_mh_data 1
                      (snd (scrape_mh_data 1
                              (init three_pages true false 1 (Some 1))))))) /\
  collection PageRow
    (snd (scrape_mh_data 1 (init three_pages true false 1 (Some 1)))) =
    collection PageRow (init three_pages true false 1 (Some 1)) ++
    records_on three_pages PageRow [1] /\
  collection PageRow
    (snd (scrape_mh_data 1
            (snd (scrape_mh_data 1
                    (init three_pages true false 1 (Some 1)))))) =
    collection PageRow (init three_pages true false 1 (Some 1)) ++
    records_on three_pages PageRow [1] ++ records_on three_pages PageRow [1].
Proof.
  assert (H1 : in_sync three_pages 1 (init three_pages true false 1 (Some 1))).
  { unfold in_sync. repeat split. }
  split; [exact H1|]. do 2 (split; [reflexivity|]).
  apply (second_call_scrapes_the_page_again three_pages 1
           (init three_pages true false 1 (Some 1)) 0 0 PageRow);
    [exact H1 | reflexivity | reflexivity].
Defined.

(** ** The table lookup *)



(** ** Rows that leave no trace *)


